(** * Abah Farm backend (server.js): access control, accounts, orders,
      newsletter and dashboard aggregation

    A shallow embedding of the Express/Mongoose handlers of server.js.
    Collections are lists of documents in natural (insertion) order,
    handlers are functions from the database to a response and a new
    database, and a JavaScript exception is a value of the error monad
    below, so that every [try]/[catch] of the source is visible. *)

From Stdlib Require Import ZArith NArith Ascii String List Lia Permutation Sorted.
From Stdlib Require Import Floats.
From stdpp Require Import base option list sorting strings gmap.

Set Warnings "-register-all,-inexact-float".

Local Open Scope string_scope.
Local Open Scope list_scope.

(** ** JavaScript values *)

(** A Mongo ObjectId: the 96-bit value. *)
Definition ObjectId := N.
Bind Scope N_scope with ObjectId.

(** Values a request body can hold.  A number is a JavaScript Number, a
    binary64 double.  [VOid] is an in-memory ObjectId (as
    [req.user._id]); JSON itself only carries the other shapes. *)
Inductive JSVal :=
| VNull
| VBool (b : bool)
| VNum (n : float)
| VStr (s : string)
| VOid (i : ObjectId)
| VArr (items : list JSVal)
| VObj (fields : list (string * JSVal)).

(** Property read on a nested object literal: the last binding of a key
    wins, as in JSON.parse. *)
Fixpoint obj_get (k : string) (fields : list (string * JSVal)) : option JSVal :=
  match fields with
  | [] => None
  | (k', v) :: rest =>
      match obj_get k rest with
      | Some w => Some w
      | None => if String.eqb k k' then Some v else None
      end
  end.

(** [prefix_rest pat s] is what follows [pat] when [s] starts with it. *)
Fixpoint prefix_rest (pat s : string) : option string :=
  match pat, s with
  | EmptyString, _ => Some s
  | String a pat', String b s' =>
      if Ascii.eqb a b then prefix_rest pat' s' else None
  | String _ _, EmptyString => None
  end.

(** [String.prototype.replace] with a string pattern: the first
    occurrence only. *)
Fixpoint js_replace (pat repl s : string) : string :=
  match prefix_rest pat s with
  | Some rest => repl ++ rest
  | None =>
      match s with
      | EmptyString => EmptyString
      | String c s' => String c (js_replace pat repl s')
      end
  end.

(** Truthiness of a possibly undefined string: [undefined] and the empty
    string are falsy. *)
Definition truthy_string (s : option string) : bool :=
  match s with
  | None => false
  | Some s => negb (String.eqb s "")
  end.

(** [a || b] on strings read from the environment. *)
Definition js_or_string (a : option string) (b : string) : string :=
  match a with
  | Some s => if String.eqb s "" then b else s
  | None => b
  end.

(** ** Documents (the schemas of server.js) *)

Record User := {
  u_id : ObjectId;
  u_name : string;
  u_email : string;
  u_password : string;
  u_isAdmin : bool;
  u_createdAt : Z
}.

Record Product := {
  p_id : ObjectId;
  p_name : string;
  p_description : string;
  p_price : float;
  p_image : string;
  p_category : string;
  p_inStock : bool;
  p_featured : bool;
  p_createdAt : Z
}.

(** One element of [Order.products].  Quantities are whole numbers in
    the model; their sums are exact. *)
Record LineItem := {
  li_product : ObjectId;
  li_quantity : Z
}.

Record Address := {
  a_street : string;
  a_city : string;
  a_state : string;
  a_zipCode : string;
  a_country : string
}.

(** [totalAmount] is a Number, a double.  The paths that have a default
    and are not required can hold null ([None]): the default only fills
    in for an undefined value. *)
Record Order := {
  o_id : ObjectId;
  o_user : ObjectId;
  o_products : list LineItem;
  o_totalAmount : float;
  o_shippingAddress : Address;
  o_paymentMethod : string;
  o_paymentStatus : option string;
  o_orderStatus : option string;
  o_createdAt : option Z
}.

Record NewsletterSubscriber := {
  s_id : ObjectId;
  s_email : string;
  s_active : bool;
  s_createdAt : Z
}.

(** The collections the modelled routes read or write. *)
Record DB := {
  users : list User;
  orders : list Order;
  products : list Product;
  subscribers : list NewsletterSubscriber
}.

Definition set_users (us : list User) (db : DB) : DB :=
  {| users := us; orders := orders db; products := products db;
     subscribers := subscribers db |}.

Definition set_orders (os : list Order) (db : DB) : DB :=
  {| users := users db; orders := os; products := products db;
     subscribers := subscribers db |}.

Definition set_subscribers (ss : list NewsletterSubscriber) (db : DB) : DB :=
  {| users := users db; orders := orders db; products := products db;
     subscribers := ss |}.

(** ** Responses *)

(** [{ id, name, email, isAdmin }] *)
Record PublicUser := {
  pu_id : ObjectId;
  pu_name : string;
  pu_email : string;
  pu_isAdmin : bool
}.

(** A reference after [populate(path, select)]: the selected fields of
    the referenced document. *)
Record UserRef := {
  ur_id : ObjectId;
  ur_name : string;
  ur_email : string
}.

Record ProductRef := {
  pr_id : ObjectId;
  pr_name : string;
  pr_price : float
}.

(** A line item whose product was populated; [None] is JavaScript's
    [null], what populate leaves when the reference resolves to no
    document. *)
Record PopulatedItem := {
  pi_product : option ProductRef;
  pi_quantity : Z
}.

Record PopulatedOrder := {
  po_order : Order;
  po_user : option UserRef;
  po_products : list PopulatedItem
}.

(** One entry of the dashboard's [popularProducts]. *)
Record PopularProduct := {
  pp_product : option ProductRef;
  pp_count : Z
}.

Inductive Body :=
| BMessage (message : string)
| BAuth (token : string) (user : PublicUser)
| BUser (user : PublicUser)
| BOrder (order : Order)
| BPopulatedOrder (order : PopulatedOrder).

Record Response := {
  res_status : nat;
  res_body : Body
}.

(** [res.status(code).json({ message })] *)
Definition respond_message (code : nat) (message : string) : Response :=
  {| res_status := code; res_body := BMessage message |}.

(** [res.json(body)]: status 200. *)
Definition respond_json (body : Body) : Response :=
  {| res_status := 200; res_body := body |}.

(** ** Exceptions and the handler monad *)

(** The outcome of evaluating JavaScript code: a value, or a thrown
    error with its [message]. *)
Inductive Exc (A : Type) :=
| Ok (a : A)
| Throw (message : string).
Arguments Ok {A} a.
Arguments Throw {A} message.

(** An asynchronous handler body: it reads and writes the database and
    may throw; writes made before a throw stay. *)
Definition M (A : Type) : Type := DB -> Exc A * DB.

Definition ret {A} (a : A) : M A := fun db => (Ok a, db).

Definition throw {A} (message : string) : M A := fun db => (Throw message, db).

Definition bind {A B} (m : M A) (k : A -> M B) : M B :=
  fun db =>
    match m db with
    | (Ok a, db') => k a db'
    | (Throw e, db') => (Throw e, db')
    end.

Definition lift {A} (e : Exc A) : M A := fun db => (e, db).

Definition gets {A} (f : DB -> A) : M A := fun db => (Ok (f db), db).

Definition modify (f : DB -> DB) : M unit := fun db => (Ok tt, f db).

Notation "'let*' x ':=' m 'in' k" := (bind m (fun x => k))
  (at level 10, x name, m at level 100, k at level 200).

(** [try { body } catch (error) { res.status(code).json({ message:
    error.message }) }], where [body] ends by sending a response. *)
Definition try_catch (body : M Response) (handler : string -> Response)
  : DB -> Response * DB :=
  fun db =>
    match body db with
    | (Ok r, db') => (r, db')
    | (Throw e, db') => (handler e, db')
    end.

(** ** The libraries the server calls

    bcryptjs, jsonwebtoken and Mongoose's cast of an id are outside
    server.js; the handlers are parametric in them. *)
Class Lib := {
  (** [bcrypt.hash(password, salt)] on two strings. *)
  bcrypt_hash : string -> string -> string;
  (** [bcrypt.compare(password, hash)] on two strings. *)
  bcrypt_compare : string -> string -> bool;
  (** [jwt.sign({ userId }, secret, { expiresIn: '7d' })] at a given
      time. *)
  jwt_sign : ObjectId -> string -> Z -> string;
  (** [jwt.verify(token, secret)] at a given time: the [userId] of the
      decoded payload, or [None] when verify throws (malformed, wrongly
      signed or expired token). *)
  jwt_verify : string -> string -> Z -> option string;
  (** Mongoose's cast of a string to an ObjectId; [None] is a
      CastError. *)
  oid_of_string : string -> option ObjectId;
  (** A bcrypt hash is never the empty string (it is 60 characters
      long). *)
  bcrypt_hash_nonempty : forall password salt, bcrypt_hash password salt <> ""
}.

(** What a request gets from its surroundings: the clock, the ObjectId
    Mongoose generates for a document built with [new] (never one that
    the collection already uses), the salt [bcrypt.genSalt(10)] draws,
    and [process.env.JWT_SECRET]. *)
Record Env := {
  env_now : Z;
  env_newId : list ObjectId -> ObjectId;
  env_newId_fresh : forall used, ~ In (env_newId used) used;
  env_salt : string;
  env_JWT_SECRET : option string
}.

(** Mongoose's Order model: [new Order(obj)] followed by the validation
    that [save] runs, which gives the document to insert or throws a
    ValidationError.  How it casts, wraps and defaults the body is
    Mongoose's business; the order route is parametric in it.  [used]
    are the ids of the stored orders, for the [_id] it generates.  The
    two laws are what the order schema says of two paths: [user] is
    [{ type: ObjectId, ref: 'User', required: true }], so an ObjectId
    given for it is the [user] of the document; [paymentStatus] is
    [{ type: String, default: 'pending' }], so a document built from an
    object without that key holds 'pending'. *)
Class OrderModel := {
  new_Order : Env -> list ObjectId -> gmap string JSVal -> Exc Order;
  new_Order_user :
    forall env used obj i order,
      obj !! "user" = Some (VOid i) ->
      new_Order env used obj = Ok order ->
      o_user order = i;
  new_Order_paymentStatus :
    forall env used obj order,
      obj !! "paymentStatus" = None ->
      new_Order env used obj = Ok order ->
      o_paymentStatus order = Some "pending"
}.

(** [process.env.JWT_SECRET || 'abahfarmsecret'] *)
Definition JWT_SECRET (env : Env) : string :=
  js_or_string (env_JWT_SECRET env) "abahfarmsecret".

(** ** Persistence *)

(** [Model.findById(id)] on an already cast id. *)
Definition User_findById (id : ObjectId) (us : list User) : option User :=
  find (fun u => N.eqb (u_id u) id) us.

Definition Order_findById (id : ObjectId) (os : list Order) : option Order :=
  find (fun o => N.eqb (o_id o) id) os.

Definition Product_findById (id : ObjectId) (ps : list Product) : option Product :=
  find (fun p => N.eqb (p_id p) id) ps.

(** [User.findOne({ email })].  An undefined [email] is sent as null,
    which no stored document matches: every stored User has an email
    string. *)
Definition User_findOne_email (email : option string) (us : list User)
  : option User :=
  match email with
  | Some e => find (fun u => String.eqb (u_email u) e) us
  | None => None
  end.

(** [NewsletterSubscriber.findOne({ email })] *)
Definition Subscriber_findOne_email (email : option string)
    (ss : list NewsletterSubscriber) : option NewsletterSubscriber :=
  match email with
  | Some e => find (fun s => String.eqb (s_email s) e) ss
  | None => None
  end.

(** The [required: true] validator of a String path: undefined and the
    empty string both fail.  The result lists the failing path. *)
Definition required_string (path : string) (v : option string) : list string :=
  match v with
  | Some s => if String.eqb s "" then [path] else []
  | None => [path]
  end.

Definition required_path_message (path : string) : string :=
  path ++ ": Path `" ++ path ++ "` is required.".

(** The message of a Mongoose ValidationError. *)
Definition validation_message (model : string) (paths : list string) : string :=
  model ++ " validation failed: "
        ++ String.concat ", " (map required_path_message paths).

(** The message of MongoDB's duplicate key error. *)
Definition duplicate_key_message (index : string) : string :=
  "E11000 duplicate key error index: " ++ index.

(** Validation as [save] runs it: throw when a required path fails. *)
Definition validate (model : string) (failing : list string) : M unit :=
  match failing with
  | [] => ret tt
  | _ :: _ => throw (validation_message model failing)
  end.

(** [new User({ name, email, password }).save()]: defaults ([isAdmin]
    false, [createdAt] now), validation, then the insert, which the
    unique indexes on [_id] and [email] can refuse. *)
Definition User_create (env : Env) (name email : option string)
    (password : string) : M User :=
  let* used := gets (fun db => map u_id (users db)) in
  let user := {| u_id := env_newId env used;
                 u_name := default "" name;
                 u_email := default "" email;
                 u_password := password;
                 u_isAdmin := false;
                 u_createdAt := env_now env |} in
  let* _ := validate "User"
              (required_string "name" name ++ required_string "email" email
               ++ required_string "password" (Some password)) in
  let* us := gets users in
  if existsb (fun u => N.eqb (u_id u) (u_id user)) us
  then throw (duplicate_key_message "_id_")
  else if existsb (fun u => String.eqb (u_email u) (u_email user)) us
  then throw (duplicate_key_message "email_1")
  else
    let* _ := modify (fun db => set_users (users db ++ [user]) db) in
    ret user.

(** [new NewsletterSubscriber({ email }).save()] *)
Definition Subscriber_create (env : Env) (email : option string)
  : M NewsletterSubscriber :=
  let* used := gets (fun db => map s_id (subscribers db)) in
  let subscriber := {| s_id := env_newId env used;
                       s_email := default "" email;
                       s_active := true;
                       s_createdAt := env_now env |} in
  let* _ := validate "NewsletterSubscriber" (required_string "email" email) in
  let* ss := gets subscribers in
  if existsb (fun s => N.eqb (s_id s) (s_id subscriber)) ss
  then throw (duplicate_key_message "_id_")
  else if existsb (fun s => String.eqb (s_email s) (s_email subscriber)) ss
  then throw (duplicate_key_message "email_1")
  else
    let* _ := modify (fun db => set_subscribers (subscribers db ++ [subscriber]) db) in
    ret subscriber.

(** Apply [f] to the first element that satisfies [p]. *)
Fixpoint update_first {A} (p : A -> bool) (f : A -> A) (l : list A) : list A :=
  match l with
  | [] => []
  | x :: l' => if p x then f x :: l' else x :: update_first p f l'
  end.

Definition set_active (b : bool) (s : NewsletterSubscriber) : NewsletterSubscriber :=
  {| s_id := s_id s; s_email := s_email s; s_active := b;
     s_createdAt := s_createdAt s |}.

(** [subscriber.active = b; await subscriber.save()] on a document that
    was read from the collection: validation of the document, then an
    update of the stored document with its [_id]. *)
Definition Subscriber_save_active (subscriber : NewsletterSubscriber) (b : bool)
  : M unit :=
  let* _ := validate "NewsletterSubscriber"
              (required_string "email" (Some (s_email subscriber))) in
  modify (fun db =>
    set_subscribers
      (update_first (fun s => N.eqb (s_id s) (s_id subscriber)) (set_active b)
                    (subscribers db)) db).

(** The documents of a collection satisfy the [required] constraints of
    their schema. *)
Definition Subscriber_valid (s : NewsletterSubscriber) : Prop :=
  s_email s <> "".

(** A subscriber collection as MongoDB and the schema keep it: [_id] is
    unique and every document has its required email. *)
Definition Subscribers_wf (ss : list NewsletterSubscriber) : Prop :=
  List.NoDup (map s_id ss) /\ Forall Subscriber_valid ss.

(** ** Access-control middleware *)

(** What a middleware does: hand over to the next handler (here with
    the user it attached to the request), or answer. *)
Inductive Gate (A : Type) :=
| Next (a : A)
| Respond (r : Response).
Arguments Next {A} a.
Arguments Respond {A} r.

(** [auth]: the whole body is inside [try]; every throw is answered with
    401 'Authentication failed'. *)
Definition auth {L : Lib} (env : Env) (authorization : option string) (db : DB)
  : Gate User :=
  let body : Exc (Gate User) :=
    let token := js_replace "Bearer " "" <$> authorization in
    if negb (truthy_string token)
    then Ok (Respond (respond_message 401 "Authentication required"))
    else
      match jwt_verify (default "" token) (JWT_SECRET env) (env_now env) with
      | None => Throw "jwt.verify failed"
      | Some userId =>
          match oid_of_string userId with
          | None => Throw "Cast to ObjectId failed"
          | Some id =>
              match User_findById id (users db) with
              | None => Ok (Respond (respond_message 401 "User not found"))
              | Some user => Ok (Next user)
              end
          end
      end in
  match body with
  | Ok g => g
  | Throw _ => Respond (respond_message 401 "Authentication failed")
  end.

(** [req.user.isAdmin]: reading a property of [undefined] throws. *)
Definition get_isAdmin (req_user : option User) : Exc bool :=
  match req_user with
  | Some user => Ok (u_isAdmin user)
  | None => Throw "Cannot read property 'isAdmin' of undefined"
  end.

(** Truthiness of [req.user]: an attached document is truthy,
    [undefined] is not. *)
Definition truthy_user (req_user : option User) : bool :=
  match req_user with
  | Some _ => true
  | None => false
  end.

(** [adminAuth]: no [try] here, so a throw would leave the middleware
    uncaught.  [req.user] is whatever an earlier middleware attached, if
    any. *)
Definition adminAuth (req_user : option User) : Exc (Gate unit) :=
  match
    (if truthy_user req_user then get_isAdmin req_user else Ok false)
  with
  | Throw e => Throw e
  | Ok true => Ok (Next tt)
  | Ok false => Ok (Respond (respond_message 403 "Admin access required"))
  end.

(** A route declared as [app.METHOD(path, auth, handler)]. *)
Definition with_auth {L : Lib} (env : Env) (authorization : option string)
    (handler : User -> DB -> Response * DB) : DB -> Response * DB :=
  fun db =>
    match auth env authorization db with
    | Respond r => (r, db)
    | Next user => handler user db
    end.

(** ** Account routes *)

(** [req.body] of the register and login routes.  [None] is a missing
    field. *)
Record Credentials := {
  cr_name : option string;
  cr_email : option string;
  cr_password : option string
}.

(** The same request with another password, and the same surroundings
    with another salt. *)
Definition set_password (password : option string) (body : Credentials)
  : Credentials :=
  {| cr_name := cr_name body; cr_email := cr_email body;
     cr_password := password |}.

Definition set_salt (salt : string) (env : Env) : Env :=
  {| env_now := env_now env; env_newId := env_newId env;
     env_newId_fresh := env_newId_fresh env; env_salt := salt;
     env_JWT_SECRET := env_JWT_SECRET env |}.

Definition public_user (user : User) : PublicUser :=
  {| pu_id := u_id user; pu_name := u_name user; pu_email := u_email user;
     pu_isAdmin := u_isAdmin user |}.

(** bcryptjs rejects an argument that is not a string. *)
Definition bcrypt_hash_js {L : Lib} (password : option string) (salt : string)
  : Exc string :=
  match password with
  | Some p => Ok (bcrypt_hash p salt)
  | None => Throw "Illegal arguments: undefined, string"
  end.

Definition bcrypt_compare_js {L : Lib} (password : option string) (hash : string)
  : Exc bool :=
  match password with
  | Some p => Ok (bcrypt_compare p hash)
  | None => Throw "Illegal arguments: undefined, string"
  end.

(** [app.post('/api/auth/register')] *)
Definition post_auth_register {L : Lib} (env : Env) (body : Credentials)
  : DB -> Response * DB :=
  try_catch
    (let* existingUser := gets (fun db => User_findOne_email (cr_email body) (users db)) in
     match existingUser with
     | Some _ => ret (respond_message 400 "User already exists")
     | None =>
         let* hashedPassword := lift (bcrypt_hash_js (cr_password body) (env_salt env)) in
         let* user := User_create env (cr_name body) (cr_email body) hashedPassword in
         let token := jwt_sign (u_id user) (JWT_SECRET env) (env_now env) in
         ret {| res_status := 201; res_body := BAuth token (public_user user) |}
     end)
    (fun message => respond_message 400 message).

(** [app.post('/api/auth/login')] *)
Definition post_auth_login {L : Lib} (env : Env) (body : Credentials)
  : DB -> Response * DB :=
  try_catch
    (let* user := gets (fun db => User_findOne_email (cr_email body) (users db)) in
     match user with
     | None => ret (respond_message 400 "Invalid credentials")
     | Some user =>
         let* isMatch := lift (bcrypt_compare_js (cr_password body) (u_password user)) in
         if negb isMatch
         then ret (respond_message 400 "Invalid credentials")
         else
           let token := jwt_sign (u_id user) (JWT_SECRET env) (env_now env) in
           ret (respond_json (BAuth token (public_user user)))
     end)
    (fun message => respond_message 500 message).

(** The user [post_auth_register] stores. *)
Definition registered_user {L : Lib} (env : Env) (db : DB)
    (name email password : string) : User :=
  {| u_id := env_newId env (map u_id (users db));
     u_name := name;
     u_email := email;
     u_password := bcrypt_hash password (env_salt env);
     u_isAdmin := false;
     u_createdAt := env_now env |}.

(** [app.get('/api/auth/me', auth, ...)] *)
Definition get_auth_me {L : Lib} (env : Env) (authorization : option string)
  : DB -> Response * DB :=
  with_auth env authorization
    (fun req_user db => (respond_json (BUser (public_user req_user)), db)).

(** ** Newsletter routes *)

(** [app.post('/api/newsletter')] with [req.body.email]. *)
Definition post_newsletter (env : Env) (email : option string)
  : DB -> Response * DB :=
  try_catch
    (let* existingSubscriber :=
       gets (fun db => Subscriber_findOne_email email (subscribers db)) in
     match existingSubscriber with
     | Some existing =>
         if s_active existing
         then ret (respond_message 400 "Email already subscribed")
         else
           let* _ := Subscriber_save_active existing true in
           ret (respond_json (BMessage "Subscription reactivated successfully"))
     | None =>
         let* _ := Subscriber_create env email in
         ret (respond_message 201 "Subscribed successfully")
     end)
    (fun message => respond_message 400 message).

(** [app.post('/api/newsletter/unsubscribe')] *)
Definition post_newsletter_unsubscribe (email : option string)
  : DB -> Response * DB :=
  try_catch
    (let* subscriber :=
       gets (fun db => Subscriber_findOne_email email (subscribers db)) in
     match subscriber with
     | None => ret (respond_message 404 "Subscription not found")
     | Some subscriber =>
         let* _ := Subscriber_save_active subscriber false in
         ret (respond_json (BMessage "Unsubscribed successfully"))
     end)
    (fun message => respond_message 400 message).

(** ** Order routes *)

Definition exc_bind {A B} (e : Exc A) (k : A -> Exc B) : Exc B :=
  match e with
  | Ok a => k a
  | Throw m => Throw m
  end.

Notation "'let?' x ':=' e 'in' k" := (exc_bind e (fun x => k))
  (at level 10, x name, e at level 100, k at level 200).

Fixpoint exc_map {A B} (f : A -> Exc B) (l : list A) : Exc (list B) :=
  match l with
  | [] => Ok []
  | x :: l' =>
      let? y := f x in
      let? ys := exc_map f l' in
      Ok (y :: ys)
  end.

(** [order.save()] of a new order: validation, then the insert, which
    the unique index on [_id] can refuse. *)
Definition Order_create {O : OrderModel} (env : Env) (obj : gmap string JSVal)
  : M Order :=
  let* used := gets (fun db => map o_id (orders db)) in
  let* order := lift (new_Order env used obj) in
  let* os := gets orders in
  if existsb (fun o => N.eqb (o_id o) (o_id order)) os
  then throw (duplicate_key_message "_id_")
  else
    let* _ := modify (fun db => set_orders (orders db ++ [order]) db) in
    ret order.

(** The handler of [app.post('/api/orders', auth, ...)]:
    [{ ...req.body, user: req.user._id }] is the body with its [user]
    key set, or overwritten. *)
Definition post_orders_handler {O : OrderModel} (env : Env)
    (body : gmap string JSVal) (req_user : User) : DB -> Response * DB :=
  try_catch
    (let* order := Order_create env (<["user" := VOid (u_id req_user)]> body) in
     ret {| res_status := 201; res_body := BOrder order |})
    (fun message => respond_message 400 message).

Definition post_orders {L : Lib} {O : OrderModel} (env : Env)
    (authorization : option string) (body : gmap string JSVal)
  : DB -> Response * DB :=
  with_auth env authorization (post_orders_handler env body).

(** [populate('user', 'name email')] *)
Definition populate_user (us : list User) (id : ObjectId) : option UserRef :=
  (fun u => {| ur_id := u_id u; ur_name := u_name u; ur_email := u_email u |})
    <$> User_findById id us.

(** [populate(path, 'name price')] of a product reference. *)
Definition populate_product (ps : list Product) (id : ObjectId) : option ProductRef :=
  (fun p => {| pr_id := p_id p; pr_name := p_name p; pr_price := p_price p |})
    <$> Product_findById id ps.

Definition populate_order (db : DB) (order : Order) : PopulatedOrder :=
  {| po_order := order;
     po_user := populate_user (users db) (o_user order);
     po_products :=
       map (fun li => {| pi_product := populate_product (products db) (li_product li);
                         pi_quantity := li_quantity li |})
           (o_products order) |}.

(** [order.user._id]: [order.user] is null when the owner did not
    resolve, and reading a property of null throws. *)
Definition get_user_id (user : option UserRef) : Exc ObjectId :=
  match user with
  | Some r => Ok (ur_id r)
  | None => Throw "Cannot read property '_id' of null"
  end.

(** [Order.findById(req.params.id)]: the route parameter is a string
    that is cast first. *)
Definition cast_param_id {L : Lib} (id : string) : Exc ObjectId :=
  match oid_of_string id with
  | Some i => Ok i
  | None => Throw "Cast to ObjectId failed"
  end.

(** The handler of [app.get('/api/orders/:id', auth, ...)]. *)
Definition get_orders_id_handler {L : Lib} (id : string) (req_user : User)
  : DB -> Response * DB :=
  try_catch
    (let* oid := lift (cast_param_id id) in
     let* order := gets (fun db => populate_order db <$> Order_findById oid (orders db)) in
     match order with
     | None => ret (respond_message 404 "Order not found")
     | Some order =>
         let* denied :=
           lift (if negb (u_isAdmin req_user)
                 then let? owner := get_user_id (po_user order) in
                      Ok (negb (N.eqb owner (u_id req_user)))
                 else Ok false) in
         if denied
         then ret (respond_message 403 "Not authorized")
         else ret (respond_json (BPopulatedOrder order))
     end)
    (fun message => respond_message 500 message).

Definition get_orders_id {L : Lib} (env : Env) (authorization : option string)
    (id : string) : DB -> Response * DB :=
  with_auth env authorization (get_orders_id_handler id).

(** ** Dashboard aggregation *)

(** The match of [{ paymentStatus: status }]: the path holds that
    string; null matches no string. *)
Definition has_paymentStatus (status : string) (o : Order) : bool :=
  match o_paymentStatus o with
  | Some s => String.eqb s status
  | None => false
  end.

(** [Order.find({ paymentStatus: status })]: the matching orders, in
    natural order. *)
Definition Order_find_paymentStatus (status : string) (os : list Order)
  : list Order :=
  List.filter (has_paymentStatus status) os.

(** [allOrders.reduce((sum, order) => sum + order.totalAmount, 0)]: the
    additions of doubles, from the left. *)
Definition totalRevenue (allOrders : list Order) : float :=
  fold_left (fun sum order => (sum + o_totalAmount order)%float) allOrders
            0%float.

(** [revenue.total] of the dashboard. *)
Definition dashboard_revenue_total (db : DB) : float :=
  totalRevenue (Order_find_paymentStatus "completed" (orders db)).

(** The sum of [totalAmount] over exactly the orders whose payment
    status is "completed", in the words of the specification: going
    through the orders, an order adds its amount to the sum if it is
    completed and leaves the sum as it is otherwise.  Compared with
    [dashboard_revenue_total] below. *)
Fixpoint add_completed (sum : float) (os : list Order) : float :=
  match os with
  | [] => sum
  | o :: os' =>
      add_completed
        (if has_paymentStatus "completed" o
         then (sum + o_totalAmount o)%float else sum)
        os'
  end.

Definition revenue_of_completed (os : list Order) : float :=
  add_completed 0%float os.

(** A document of the aggregation after [$group]:
    [{ _id: <product>, count: <sum of quantity> }]. *)
Record Group := {
  g_id : ObjectId;
  g_count : Z
}.

(** [{ $unwind: '$products' }]: one document per line item of every
    order; no stage before it filters the orders. *)
Definition unwind (os : list Order) : list LineItem :=
  flat_map o_products os.

(** The cumulative quantity of a product over a list of line items. *)
Definition quantity_of (id : ObjectId) (items : list LineItem) : Z :=
  fold_right Z.add 0%Z
    (map li_quantity (List.filter (fun li => N.eqb (li_product li) id) items)).

(** [{ $group: { _id: '$products.product', count: { $sum:
    '$products.quantity' } } }]: one document per distinct product with
    the sum of its quantities.  MongoDB leaves the order of the output
    of [$group] open, so the stage is a relation. *)
Definition group_stage (items : list LineItem) (groups : list Group) : Prop :=
  List.NoDup (map g_id groups)
  /\ (forall id, In id (map g_id groups) <-> In id (map li_product items))
  /\ Forall (fun g => g_count g = quantity_of (g_id g) items) groups.

(** The order [{ count: -1 }] asks for. *)
Definition count_ge (a b : Group) : Prop := (g_count b <= g_count a)%Z.

(** [{ $sort: { count: -1 } }]: the same documents in non-increasing
    [count].  The sort key is the only key, so documents with equal
    counts may come out in either order. *)
Definition sort_stage (input output : list Group) : Prop :=
  Permutation input output /\ StronglySorted count_ge output.

(** [{ $limit: 5 }] *)
Definition limit_stage (n : nat) (input : list Group) : list Group :=
  firstn n input.

(** [Order.aggregate([...])]: the results the four stages admit. *)
Definition aggregate_popular (os : list Order) (result : list Group) : Prop :=
  exists groups sorted,
    group_stage (unwind os) groups
    /\ sort_stage groups sorted
    /\ result = limit_stage 5 sorted.

(** [Product.populate(popularProducts, { path: '_id', select: 'name
    price' })] followed by the [map] to [{ product, count }]. *)
Definition populate_popular (ps : list Product) (agg : list Group)
  : list PopularProduct :=
  map (fun item => {| pp_product := populate_product ps (g_id item);
                      pp_count := g_count item |}) agg.

(** [dashboardData.popularProducts] *)
Definition popularProducts (db : DB) (result : list PopularProduct) : Prop :=
  exists agg, aggregate_popular (orders db) agg
              /\ result = populate_popular (products db) agg.

(** [dashboardData.popularProducts] when the engine answers the
    aggregation with [aggregate (orders)]: the engine is MongoDB, outside
    server.js, and the handler is parametric in it. *)
Definition popularProducts_by (aggregate : list Order -> list Group) (db : DB)
  : list PopularProduct :=
  populate_popular (products db) (aggregate (orders db)).

(** The order of the final list: non-increasing [count]. *)
Definition pp_count_ge (a b : PopularProduct) : Prop :=
  (pp_count b <= pp_count a)%Z.

(** One way for the engine to run the pipeline: groups in order of first
    appearance, then a stable insertion sort. *)
Fixpoint group_run (items : list LineItem) (seen : list ObjectId) : list Group :=
  match items with
  | [] => []
  | li :: rest =>
      if existsb (N.eqb (li_product li)) seen
      then group_run rest seen
      else {| g_id := li_product li;
              g_count := quantity_of (li_product li) (li :: rest) |}
           :: group_run rest (li_product li :: seen)
  end.

Fixpoint insert_desc (g : Group) (l : list Group) : list Group :=
  match l with
  | [] => [g]
  | h :: t =>
      if (g_count h <? g_count g)%Z then g :: h :: t
      else h :: insert_desc g t
  end.

Definition sort_run (l : list Group) : list Group :=
  fold_right insert_desc [] l.

Definition aggregate_popular_run (os : list Order) : list Group :=
  limit_stage 5 (sort_run (group_run (unwind os) [])).

Definition popularProducts_run (db : DB) : list PopularProduct :=
  populate_popular (products db) (aggregate_popular_run (orders db)).

(** ** Routes that answer with documents

    The product, order-list and admin routes send a document or a list
    of documents; their answers are typed by what they carry. *)

(** [res.status(status).json(value)], or [res.status(status).json({
    message })]. *)
Inductive Reply (A : Type) :=
| Json (status : nat) (value : A)
| Message (status : nat) (message : string).
Arguments Json {A} status value.
Arguments Message {A} status message.

Definition reply_status {A} (r : Reply A) : nat :=
  match r with
  | Json status _ => status
  | Message status _ => status
  end.

(** The answer of a gate, which is always [{ message }]. *)
Definition gate_reply {A} (r : Response) : Reply A :=
  Message (res_status r)
          (match res_body r with
           | BMessage message => message
           | _ => ""
           end).

(** [try { body } catch (error) { res.status(code).json({ message:
    error.message }) }] for these routes. *)
Definition try_reply {A} (body : M (Reply A)) (code : nat)
  : DB -> Reply A * DB :=
  fun db =>
    match body db with
    | (Ok r, db') => (r, db')
    | (Throw e, db') => (Message code e, db')
    end.

(** A route declared as [app.METHOD(path, auth, handler)]. *)
Definition with_auth_reply {L : Lib} {A} (env : Env)
    (authorization : option string)
    (handler : User -> DB -> Reply A * DB) : DB -> Reply A * DB :=
  fun db =>
    match auth env authorization db with
    | Respond r => (gate_reply r, db)
    | Next user => handler user db
    end.

(** A route declared as [app.METHOD(path, auth, adminAuth, handler)]:
    [adminAuth] sees the user [auth] attached.  An error thrown by a
    middleware outside any [try] would reach Express's error handler,
    which answers 500. *)
Definition with_auth_admin {L : Lib} {A} (env : Env)
    (authorization : option string)
    (handler : User -> DB -> Reply A * DB) : DB -> Reply A * DB :=
  fun db =>
    match auth env authorization db with
    | Respond r => (gate_reply r, db)
    | Next user =>
        match adminAuth (Some user) with
        | Ok (Next _) => handler user db
        | Ok (Respond r) => (gate_reply r, db)
        | Throw e => (Message 500 e, db)
        end
    end.

Definition set_products (ps : list Product) (db : DB) : DB :=
  {| users := users db; orders := orders db; products := ps;
     subscribers := subscribers db |}.

(** [app.get('/api/products')] *)
Definition get_products : DB -> Reply (list Product) * DB :=
  try_reply
    (let* found := gets products in
     ret (Json 200 found))
    500.

(** [app.get('/api/products/:id')] *)
Definition get_products_id {L : Lib} (id : string)
  : DB -> Reply Product * DB :=
  try_reply
    (let* oid := lift (cast_param_id id) in
     let* product := gets (fun db => Product_findById oid (products db)) in
     match product with
     | None => ret (Message 404 "Product not found")
     | Some product => ret (Json 200 product)
     end)
    500.

(** Remove the first element that satisfies [p]. *)
Fixpoint remove_first {A} (p : A -> bool) (l : list A) : list A :=
  match l with
  | [] => []
  | x :: l' => if p x then l' else x :: remove_first p l'
  end.

(** The handler of [app.delete('/api/products/:id', auth, adminAuth,
    ...)]: [findByIdAndDelete] takes the document with the id out of
    the collection and returns it, or returns null. *)
Definition delete_products_id_handler {L : Lib} (id : string) (req_user : User)
  : DB -> Reply Product * DB :=
  try_reply
    (let* oid := lift (cast_param_id id) in
     let* product := gets (fun db => Product_findById oid (products db)) in
     match product with
     | None => ret (Message 404 "Product not found")
     | Some _ =>
         let* _ := modify (fun db =>
                     set_products
                       (remove_first (fun p => N.eqb (p_id p) oid) (products db))
                       db) in
         ret (Message 200 "Product deleted successfully")
     end)
    500.

Definition delete_products_id {L : Lib} (env : Env)
    (authorization : option string) (id : string)
  : DB -> Reply Product * DB :=
  with_auth_admin env authorization (delete_products_id_handler id).

(** [Order.find(filter)] with the filter of the order list:
    [req.user.isAdmin ? {} : { user: req.user._id }]. *)
Definition Order_find_for (req_user : User) (os : list Order) : list Order :=
  if u_isAdmin req_user then os
  else List.filter (fun o => N.eqb (o_user o) (u_id req_user)) os.

(** The handler of [app.get('/api/orders', auth, ...)]. *)
Definition get_orders_handler (req_user : User)
  : DB -> Reply (list PopulatedOrder) * DB :=
  try_reply
    (let* found :=
       gets (fun db => map (populate_order db)
                           (Order_find_for req_user (orders db))) in
     ret (Json 200 found))
    500.

Definition get_orders {L : Lib} (env : Env) (authorization : option string)
  : DB -> Reply (list PopulatedOrder) * DB :=
  with_auth_reply env authorization get_orders_handler.

(** [NewsletterSubscriber.countDocuments({ active: true })], the
    [subscribers] count of the dashboard. *)
Definition subscriberCount (db : DB) : nat :=
  length (List.filter s_active (subscribers db)).

(** A user collection as MongoDB keeps it: [_id] and [email] are
    unique. *)
Definition Users_wf (us : list User) : Prop :=
  List.NoDup (map u_id us) /\ List.NoDup (map u_email us).

(** [pat] occurs in [t]: what [t.includes(pat)] computes. *)
Fixpoint includes (pat t : string) : bool :=
  match prefix_rest pat t with
  | Some _ => true
  | None =>
      match t with
      | EmptyString => false
      | String _ t' => includes pat t'
      end
  end.

(** ** A small instance of the libraries, to run the handlers

    ObjectIds are written as 24 hexadecimal digits; a token is the
    secret, the user id and the expiry time; a hash is the salt and the
    password.  It has the interface of the real libraries and none of
    their strength. *)
Module Toy.

Definition hex_digit (c : ascii) : option N :=
  let n := N_of_ascii c in
  if ((48 <=? n) && (n <=? 57))%N then Some (n - 48)%N
  else if ((97 <=? n) && (n <=? 102))%N then Some (n - 87)%N
  else if ((65 <=? n) && (n <=? 70))%N then Some (n - 55)%N
  else None.

Fixpoint hex_value (s : string) (acc : N) : option N :=
  match s with
  | EmptyString => Some acc
  | String c s' =>
      match hex_digit c with
      | Some d => hex_value s' (16 * acc + d)%N
      | None => None
      end
  end.

Definition hex_char (d : N) : ascii :=
  ascii_of_N (if (d <? 10)%N then 48 + d else 87 + d)%N.

Fixpoint hex_string (digits : nat) (n : N) (acc : string) : string :=
  match digits with
  | O => acc
  | S k => hex_string k (n / 16)%N (String (hex_char (n mod 16)%N) acc)
  end.

Definition parse_oid (s : string) : option ObjectId :=
  if Nat.eqb (String.length s) 24 then hex_value s 0%N else None.

Definition print_oid (i : ObjectId) : string := hex_string 24 i "".

(** Seven days, in seconds. *)
Definition seven_days : Z := 604800.

Definition sign (userId : ObjectId) (secret : string) (now : Z) : string :=
  secret ++ "." ++ print_oid userId
         ++ hex_string 16 (Z.to_N (now + seven_days)) "".

Definition verify (token secret : string) (now : Z) : option string :=
  match prefix_rest (secret ++ ".") token with
  | None => None
  | Some payload =>
      if Nat.eqb (String.length payload) 40
      then
        match hex_value (substring 24 16 payload) 0%N with
        | Some exp =>
            if (now <? Z.of_N exp)%Z then Some (substring 0 24 payload) else None
        | None => None
        end
      else None
  end.

Fixpoint after_sep (c : ascii) (s : string) : string :=
  match s with
  | EmptyString => EmptyString
  | String a s' => if Ascii.eqb a c then s' else after_sep c s'
  end.

Definition hash (password salt : string) : string :=
  salt ++ "$" ++ password.

Definition compare (password hash : string) : bool :=
  String.eqb (after_sep "$" hash) password.

Definition lib : Lib.
Proof.
  refine {| bcrypt_hash := hash;
            bcrypt_compare := compare;
            jwt_sign := sign;
            jwt_verify := verify;
            oid_of_string := parse_oid;
            bcrypt_hash_nonempty := _ |}.
  intros password salt. unfold hash. destruct salt; discriminate.
Defined.

(** *** A builder of orders

    A small builder that meets the laws of [OrderModel], to run the
    order routes on sample data: it reads the paths of the order schema
    from the object, casts them, fills in the defaults for undefined
    paths, keeps a null on a path that is not required, wraps a
    [products] value that is no array into one, and checks the required
    paths.  It accepts fewer bodies than Mongoose does: a number has to
    be given as a number, a quantity has to be whole. *)

(** The whole number a double stands for, if it is one. *)
Definition whole (f : float) : option Z :=
  match Prim2SF f with
  | S754_zero _ => Some 0%Z
  | S754_finite sign m e =>
      let m := if sign then Z.neg m else Z.pos m in
      if (0 <=? e)%Z then Some (m * 2 ^ e)%Z
      else if (m mod 2 ^ (- e) =? 0)%Z then Some (m / 2 ^ (- e))%Z
      else None
  | _ => None
  end.

Definition number (v : JSVal) : option float :=
  match v with
  | VNum n => Some n
  | _ => None
  end.

Definition whole_number (v : JSVal) : option Z :=
  match v with
  | VNum n => whole n
  | _ => None
  end.

Definition str (v : JSVal) : option string :=
  match v with
  | VStr s => Some s
  | _ => None
  end.

(** The ObjectId schema type: an ObjectId is kept, a string is parsed. *)
Definition cast_ObjectId (v : JSVal) : option ObjectId :=
  match v with
  | VOid i => Some i
  | VStr s => parse_oid s
  | _ => None
  end.

Definition cast_message (path : string) : string :=
  "Order validation failed: " ++ path ++ ": Cast failed".

(** A path with [required: true]: undefined and null fail the validator,
    another value is cast. *)
Definition cast_required {A} (path : string) (cast : JSVal -> option A)
    (v : option JSVal) : Exc A :=
  match v with
  | None | Some VNull => Throw (validation_message "Order" [path])
  | Some v =>
      match cast v with
      | Some a => Ok a
      | None => Throw (cast_message path)
      end
  end.

(** A path with a default that is not required: the default fills in
    for undefined only, null is kept. *)
Definition cast_default {A} (path : string) (cast : JSVal -> option A)
    (d : A) (v : option JSVal) : Exc (option A) :=
  match v with
  | None => Ok (Some d)
  | Some VNull => Ok None
  | Some v =>
      match cast v with
      | Some a => Ok (Some a)
      | None => Throw (cast_message path)
      end
  end.

(** A required String path: the empty string fails too. *)
Definition cast_required_string (path : string) (v : option JSVal)
  : Exc string :=
  let? s := cast_required path str v in
  if String.eqb s "" then Throw (validation_message "Order" [path]) else Ok s.

(** One element of [products]: [product] required, [quantity] required
    with default 1. *)
Definition cast_LineItem (v : JSVal) : Exc LineItem :=
  match v with
  | VObj fields =>
      let? product := cast_required "products.product" cast_ObjectId
                        (obj_get "product" fields) in
      let? quantity :=
        match obj_get "quantity" fields with
        | None => Ok 1%Z
        | q => cast_required "products.quantity" whole_number q
        end in
      Ok {| li_product := product; li_quantity := quantity |}
  | _ => Throw (cast_message "products")
  end.

Definition cast_Address (v : option JSVal) : Exc Address :=
  let fields := match v with Some (VObj fields) => fields | _ => [] end in
  let? street := cast_required_string "shippingAddress.street" (obj_get "street" fields) in
  let? city := cast_required_string "shippingAddress.city" (obj_get "city" fields) in
  let? state := cast_required_string "shippingAddress.state" (obj_get "state" fields) in
  let? zipCode := cast_required_string "shippingAddress.zipCode" (obj_get "zipCode" fields) in
  let? country := cast_required_string "shippingAddress.country" (obj_get "country" fields) in
  Ok {| a_street := street; a_city := city; a_state := state;
        a_zipCode := zipCode; a_country := country |}.

Definition build (env : Env) (used : list ObjectId) (obj : gmap string JSVal)
  : Exc Order :=
  let? id := cast_required "_id" cast_ObjectId
               (match obj !! "_id" with
                | None => Some (VOid (env_newId env used))
                | v => v
                end) in
  let? user := cast_required "user" cast_ObjectId (obj !! "user") in
  let? items :=
    match obj !! "products" with
    | None => Ok []
    | Some (VArr items) => exc_map cast_LineItem items
    | Some item => exc_map cast_LineItem [item]
    end in
  let? totalAmount := cast_required "totalAmount" number (obj !! "totalAmount") in
  let? shippingAddress := cast_Address (obj !! "shippingAddress") in
  let? paymentMethod := cast_required_string "paymentMethod" (obj !! "paymentMethod") in
  let? paymentStatus := cast_default "paymentStatus" str "pending"
                          (obj !! "paymentStatus") in
  let? orderStatus := cast_default "orderStatus" str "processing"
                        (obj !! "orderStatus") in
  let? createdAt := cast_default "createdAt" whole_number (env_now env)
                      (obj !! "createdAt") in
  Ok {| o_id := id; o_user := user; o_products := items;
        o_totalAmount := totalAmount; o_shippingAddress := shippingAddress;
        o_paymentMethod := paymentMethod; o_paymentStatus := paymentStatus;
        o_orderStatus := orderStatus; o_createdAt := createdAt |}.

Definition orders_model : OrderModel.
Proof.
  refine {| new_Order := build; new_Order_user := _;
            new_Order_paymentStatus := _ |}.
  - intros env used obj i order Huser. unfold build. rewrite Huser.
    cbn [cast_required cast_ObjectId].
    repeat match goal with
           | |- exc_bind ?e _ = Ok _ -> _ =>
               destruct e; cbn [exc_bind]; [|discriminate]
           end.
    intros [= <-]. reflexivity.
  - intros env used obj order Hstatus. unfold build. rewrite Hstatus.
    cbn [cast_default].
    repeat match goal with
           | |- exc_bind ?e _ = Ok _ -> _ =>
               destruct e; cbn [exc_bind]; [|discriminate]
           end.
    intros [= <-]. reflexivity.
Defined.

(** A generator of new ids: one more than the largest id in use. *)
Definition newId (used : list ObjectId) : ObjectId :=
  N.succ (fold_right N.max 0%N used).

Definition env : Env.
Proof.
  refine {| env_now := 1700000000; env_newId := newId; env_salt := "salt";
            env_JWT_SECRET := None; env_newId_fresh := _ |}.
  intros used Hin.
  assert (Hle : forall x, In x used -> (x <= fold_right N.max 0 used)%N).
  { clear Hin. induction used as [|y used IH]; cbn [fold_right In]; [tauto|].
    intros x [->|Hx]; [lia|]. specialize (IH x Hx). lia. }
  specialize (Hle _ Hin). unfold newId in Hle. lia.
Defined.

End Toy.

(** ** Sample data *)
Module Sample.

Definition empty : DB :=
  {| users := []; orders := []; products := []; subscribers := [] |}.

Definition ann : User :=
  {| u_id := 100; u_name := "Ann"; u_email := "ann@x.com";
     u_password := Toy.hash "pw" "salt"; u_isAdmin := false;
     u_createdAt := 1690000000 |}.

Definition bob : User :=
  {| u_id := 101; u_name := "Bob"; u_email := "bob@x.com";
     u_password := Toy.hash "hunter2" "pepper"; u_isAdmin := false;
     u_createdAt := 1690000500 |}.

(** The [Authorization] header of a token issued to Ann. *)
Definition ann_header : string :=
  "Bearer " ++ Toy.sign 100 "abahfarmsecret" 1699999000.

Definition milk : Product :=
  {| p_id := 1; p_name := "Fresh Milk"; p_description := "Pure and natural milk";
     p_price := 3; p_image := "milk.png"; p_category := "milk";
     p_inStock := true; p_featured := false; p_createdAt := 1680000000 |}.

Definition cheese : Product :=
  {| p_id := 2; p_name := "Organic Cheese"; p_description := "Delicious cheese";
     p_price := 7; p_image := "cheese.png"; p_category := "cheese";
     p_inStock := true; p_featured := true; p_createdAt := 1680000000 |}.

Definition address : Address :=
  {| a_street := "1 Farm Road"; a_city := "Bogor"; a_state := "West Java";
     a_zipCode := "16000"; a_country := "ID" |}.

Definition order (id user : ObjectId) (items : list LineItem) (total : float)
    (paymentStatus : string) : Order :=
  {| o_id := id; o_user := user; o_products := items; o_totalAmount := total;
     o_shippingAddress := address; o_paymentMethod := "card";
     o_paymentStatus := Some paymentStatus; o_orderStatus := Some "processing";
     o_createdAt := Some 1695000000%Z |}.

Definition item (product : ObjectId) (quantity : Z) : LineItem :=
  {| li_product := product; li_quantity := quantity |}.

(** Ann and Bob, each with one order; order 202 is Bob's. *)
Definition shop : DB :=
  {| users := [ann; bob];
     orders := [order 201 100 [item 1 3; item 2 5] 44 "pending";
                order 202 101 [item 1 2] 6 "completed"];
     products := [milk; cheese];
     subscribers := [] |}.

(** The same shop after Bob's account was removed from the users
    collection: order 202 still names him. *)
Definition shop_without_bob : DB := set_users [ann] shop.

(** Orders with mixed payment statuses. *)
Definition mixed : DB :=
  set_orders [order 201 100 [] 10 "completed"; order 202 100 [] 20 "pending";
              order 203 101 [] 30 "completed"; order 204 101 [] 40 "Completed"]
             shop.

(** A body for [POST /api/orders] that names Bob as the owner. *)
Definition order_body : gmap string JSVal :=
  list_to_map
    [("user", VStr "000000000000000000000065");
     ("products", VArr [VObj [("product", VStr "000000000000000000000001");
                              ("quantity", VNum 2)]]);
     ("totalAmount", VNum 6);
     ("shippingAddress",
      VObj [("street", VStr "1 Farm Road"); ("city", VStr "Bogor");
            ("state", VStr "West Java"); ("zipCode", VStr "16000");
            ("country", VStr "ID")]);
     ("paymentMethod", VStr "card")].

Definition subscriber : NewsletterSubscriber :=
  {| s_id := 300; s_email := "a@x.com"; s_active := true;
     s_createdAt := 1690000000 |}.

Definition readers : DB := set_subscribers [subscriber] empty.

(** The same collection after the subscriber left. *)
Definition lapsed : DB :=
  set_subscribers
    [{| s_id := 300; s_email := "a@x.com"; s_active := false;
        s_createdAt := 1690000000 |}] empty.

Definition milk_ref : ProductRef :=
  {| pr_id := 1; pr_name := "Fresh Milk"; pr_price := 3 |}.

Definition cheese_ref : ProductRef :=
  {| pr_id := 2; pr_name := "Organic Cheese"; pr_price := 7 |}.

(** The two rankings of the shop's products, which both sold five. *)
Definition milk_first : list PopularProduct :=
  [{| pp_product := Some milk_ref; pp_count := 5 |};
   {| pp_product := Some cheese_ref; pp_count := 5 |}].

Definition cheese_first : list PopularProduct :=
  [{| pp_product := Some cheese_ref; pp_count := 5 |};
   {| pp_product := Some milk_ref; pp_count := 5 |}].

End Sample.

(** ** More sample data *)
Module More.

(** The token issued to Ann, without the 'Bearer ' prefix. *)
Definition ann_token : string := Toy.sign 100 "abahfarmsecret" 1699999000.

Definition root : User :=
  {| u_id := 102; u_name := "Root"; u_email := "root@x.com";
     u_password := Toy.hash "admin" "salt"; u_isAdmin := true;
     u_createdAt := 1680000000 |}.

Definition root_header : string :=
  "Bearer " ++ Toy.sign 102 "abahfarmsecret" 1699999000.

(** The shop with an admin account. *)
Definition shop_admin : DB :=
  set_users [Sample.ann; Sample.bob; root] Sample.shop.

(** Ann's credentials, and a registration of a new user. *)
Definition ann_login : Credentials :=
  {| cr_name := None; cr_email := Some "ann@x.com"; cr_password := Some "pw" |}.

Definition cid : Credentials :=
  {| cr_name := Some "Cid"; cr_email := Some "cid@x.com";
     cr_password := Some "pw" |}.

(** The order that [Sample.order_body] creates for Ann in the shop. *)
Definition created : Order :=
  {| o_id := 203; o_user := 100; o_products := [Sample.item 1 2];
     o_totalAmount := 6; o_shippingAddress := Sample.address;
     o_paymentMethod := "card"; o_paymentStatus := Some "pending";
     o_orderStatus := Some "processing"; o_createdAt := Some 1700000000%Z |}.

(** The same body for an order of 0.5 that is already paid. *)
Definition paid_body : gmap string JSVal :=
  <["paymentStatus" := VStr "completed"]>
    (<["totalAmount" := VNum 0.5]> Sample.order_body).


End More.

(** * Properties *)

(** ** Lookups *)

Lemma User_findById_id id us u :
  User_findById id us = Some u -> u_id u = id /\ In u us.
Proof.
  unfold User_findById. intros Hf. apply find_some in Hf as [Hin Heq].
  apply N.eqb_eq in Heq. auto.
Qed.

Lemma User_findOne_email_In e us u :
  User_findOne_email (Some e) us = Some u -> u_email u = e /\ In u us.
Proof.
  simpl. intros Hf. apply find_some in Hf as [Hin Heq].
  apply String.eqb_eq in Heq. auto.
Qed.

Lemma User_findOne_email_None e us :
  User_findOne_email (Some e) us = None ->
  existsb (fun u => String.eqb (u_email u) e) us = false.
Proof.
  simpl. induction us as [|u us IH]; simpl; [reflexivity|].
  destruct (String.eqb (u_email u) e); [discriminate|]. exact IH.
Qed.

Lemma existsb_id_false {A} (key : A -> ObjectId) id (l : list A) :
  ~ In id (map key l) -> existsb (fun x => N.eqb (key x) id) l = false.
Proof.
  induction l as [|x l IH]; cbn [existsb map]; [reflexivity|].
  intros Hn. destruct (N.eqb_spec (key x) id) as [<-|Hne]; cbn [orb].
  - exfalso. apply Hn. now left.
  - apply IH. intros Hin. apply Hn. now right.
Qed.

(** ** Access control *)

Section AccessControl.
Context {L : Lib}.

(** [adminAuth] never throws: the guard [req.user &&] keeps the
    property read away from a missing user. *)
Lemma adminAuth_total req_user : exists g, adminAuth req_user = Ok g.
Proof.
  destruct req_user as [u|]; simpl.
  - unfold adminAuth; simpl. destruct (u_isAdmin u); eauto.
  - eauto.
Qed.

Lemma adminAuth_admin user :
  adminAuth (Some user)
  = Ok (if u_isAdmin user then Next tt
        else Respond (respond_message 403 "Admin access required")).
Proof.
  unfold adminAuth; simpl. now destruct (u_isAdmin user).
Qed.

(** C9: when no user is attached to the request, [adminAuth] answers
    403 'Admin access required'; it returns normally and does not throw
    on the missing user. *)
Theorem adminAuth_without_user :
  adminAuth None = Ok (Respond (respond_message 403 "Admin access required")).
Proof. reflexivity. Qed.

(** What [auth] does with a header whose token verifies. *)
Lemma auth_verified env header db userId :
  js_replace "Bearer " "" header <> "" ->
  jwt_verify (js_replace "Bearer " "" header) (JWT_SECRET env) (env_now env)
    = Some userId ->
  auth env (Some header) db
  = match oid_of_string userId with
    | None => Respond (respond_message 401 "Authentication failed")
    | Some id =>
        match User_findById id (users db) with
        | None => Respond (respond_message 401 "User not found")
        | Some user => Next user
        end
    end.
Proof.
  intros Hne Hv. unfold auth. simpl.
  destruct (String.eqb_spec (js_replace "Bearer " "" header) "") as [He|_];
    [contradiction|].
  simpl. rewrite Hv.
  destruct (oid_of_string userId) as [id|]; [|reflexivity].
  now destruct (User_findById id (users db)).
Qed.

(** [auth] lets a request through only with a stored user. *)
Lemma auth_Next env authorization db user :
  auth env authorization db = Next user ->
  User_findById (u_id user) (users db) = Some user.
Proof.
  unfold auth.
  destruct (negb (truthy_string (js_replace "Bearer " "" <$> authorization)));
    [discriminate|].
  destruct (jwt_verify _ _ _) as [userId|]; [|discriminate].
  destruct (oid_of_string userId) as [id|]; [|discriminate].
  destruct (User_findById id (users db)) as [u|] eqn:Hf; [|discriminate].
  intros [= ->]. pose proof (User_findById_id _ _ _ Hf) as [-> _]. exact Hf.
Qed.

(** C3: a request whose token verifies (well formed, signed with the
    secret, not expired) but whose user id resolves to no stored User is
    answered by [auth] with status 401; nothing is thrown.  The message
    is 'User not found' when the id is an ObjectId and 'Authentication
    failed' when the cast of the id throws. *)
Theorem auth_unresolved_user env header db userId :
  js_replace "Bearer " "" header <> "" ->
  jwt_verify (js_replace "Bearer " "" header) (JWT_SECRET env) (env_now env)
    = Some userId ->
  (forall id, oid_of_string userId = Some id ->
              User_findById id (users db) = None) ->
  auth env (Some header) db
  = Respond (respond_message 401
               match oid_of_string userId with
               | Some _ => "User not found"
               | None => "Authentication failed"
               end).
Proof.
  intros Hne Hv Hnone. rewrite (auth_verified _ _ _ _ Hne Hv).
  destruct (oid_of_string userId) as [id|] eqn:Hc; [|reflexivity].
  now rewrite (Hnone id eq_refl).
Qed.

End AccessControl.

(** ** Accounts *)

Section Accounts.
Context {L : Lib}.

Lemma login_unknown_email env body db :
  User_findOne_email (cr_email body) (users db) = None ->
  post_auth_login env body db = (respond_message 400 "Invalid credentials", db).
Proof.
  intros Hf. unfold post_auth_login, try_catch, bind, gets. now rewrite Hf.
Qed.

Lemma login_wrong_password env body db user password :
  User_findOne_email (cr_email body) (users db) = Some user ->
  cr_password body = Some password ->
  bcrypt_compare password (u_password user) = false ->
  post_auth_login env body db = (respond_message 400 "Invalid credentials", db).
Proof.
  intros Hf Hp Hc. unfold post_auth_login, try_catch, bind, gets, lift.
  rewrite Hf, Hp. simpl. now rewrite Hc.
Qed.

Lemma login_success env body db user password :
  User_findOne_email (cr_email body) (users db) = Some user ->
  cr_password body = Some password ->
  bcrypt_compare password (u_password user) = true ->
  post_auth_login env body db
  = (respond_json (BAuth (jwt_sign (u_id user) (JWT_SECRET env) (env_now env))
                         (public_user user)), db).
Proof.
  intros Hf Hp Hc. unfold post_auth_login, try_catch, bind, gets, lift.
  rewrite Hf, Hp. simpl. now rewrite Hc.
Qed.

(** C2: a login whose email matches no stored User and a login with a
    stored User's email and a password that [bcrypt.compare] rejects get
    the same response, status 400 with the message 'Invalid
    credentials', and neither changes the database. *)
Theorem login_failures_identical env1 env2 db body1 body2 user password :
  User_findOne_email (cr_email body1) (users db) = None ->
  User_findOne_email (cr_email body2) (users db) = Some user ->
  cr_password body2 = Some password ->
  bcrypt_compare password (u_password user) = false ->
  post_auth_login env1 body1 db = (respond_message 400 "Invalid credentials", db)
  /\ post_auth_login env2 body2 db = post_auth_login env1 body1 db.
Proof.
  intros Hnone Hsome Hp Hc.
  rewrite (login_unknown_email _ _ _ Hnone).
  rewrite (login_wrong_password _ _ _ _ _ Hsome Hp Hc). auto.
Qed.

Lemma register_duplicate env body db existing :
  User_findOne_email (cr_email body) (users db) = Some existing ->
  post_auth_register env body db = (respond_message 400 "User already exists", db).
Proof.
  intros Hf. unfold post_auth_register, try_catch, bind, gets. now rewrite Hf.
Qed.

Lemma required_string_ok path s : s <> "" -> required_string path (Some s) = [].
Proof.
  intros Hs. unfold required_string.
  destruct (String.eqb_spec s ""); [contradiction|reflexivity].
Qed.

Lemma register_fresh env body db name email password :
  User_findOne_email (cr_email body) (users db) = None ->
  cr_name body = Some name -> name <> "" ->
  cr_email body = Some email -> email <> "" ->
  cr_password body = Some password ->
  post_auth_register env body db
  = ({| res_status := 201;
        res_body :=
          BAuth (jwt_sign (env_newId env (map u_id (users db)))
                          (JWT_SECRET env) (env_now env))
                {| pu_id := env_newId env (map u_id (users db));
                   pu_name := name; pu_email := email; pu_isAdmin := false |} |},
     set_users (users db ++ [registered_user env db name email password]) db).
Proof.
  intros Hf Hn Hne He Hee Hp.
  unfold post_auth_register, try_catch, bind, gets, lift.
  rewrite Hf. rewrite Hp. cbn [bcrypt_hash_js].
  unfold User_create, bind, gets, validate.
  rewrite Hn, He.
  rewrite (required_string_ok "name" name Hne).
  rewrite (required_string_ok "email" email Hee).
  rewrite (required_string_ok "password" _ (bcrypt_hash_nonempty password (env_salt env))).
  cbn [app ret default u_id u_email].
  rewrite (existsb_id_false u_id _ _ (env_newId_fresh env (map u_id (users db)))).
  unfold id. rewrite He in Hf. rewrite (User_findOne_email_None _ _ Hf).
  reflexivity.
Qed.

(** A registration that must fail validation: no user with the email,
    and the name or the email missing or empty. *)
Lemma register_invalid env body db password :
  User_findOne_email (cr_email body) (users db) = None ->
  cr_password body = Some password ->
  required_string "name" (cr_name body)
    ++ required_string "email" (cr_email body) <> [] ->
  exists message,
    post_auth_register env body db = (respond_message 400 message, db).
Proof.
  intros Hf Hp Hbad.
  unfold post_auth_register, try_catch, bind, gets, lift.
  rewrite Hf, Hp. cbn [bcrypt_hash_js].
  unfold User_create, bind, gets, validate.
  rewrite app_assoc.
  destruct (required_string "name" (cr_name body)
              ++ required_string "email" (cr_email body)) as [|p ps];
    [contradiction|].
  cbn [app throw]. eauto.
Qed.

Lemma register_no_password env body db :
  User_findOne_email (cr_email body) (users db) = None ->
  cr_password body = None ->
  post_auth_register env body db
  = (respond_message 400 "Illegal arguments: undefined, string", db).
Proof.
  intros Hf Hp. unfold post_auth_register, try_catch, bind, gets, lift.
  now rewrite Hf, Hp.
Qed.

(** The response to a registration is the same whatever the password
    and the salt are: neither the password nor its hash flows into
    it. *)
Lemma register_response_hides_password env body db password password' salt' :
  cr_password body = Some password ->
  fst (post_auth_register (set_salt salt' env)
         (set_password (Some password') body) db)
  = fst (post_auth_register env body db).
Proof.
  intros Hp.
  unfold post_auth_register, try_catch, bind, gets, lift.
  cbn [set_password cr_email cr_password cr_name]. rewrite Hp.
  destruct (User_findOne_email (cr_email body) (users db)); [reflexivity|].
  cbn [bcrypt_hash_js].
  unfold User_create, bind, gets, validate.
  rewrite !(required_string_ok "password" _ (bcrypt_hash_nonempty _ _)).
  rewrite !app_nil_r.
  destruct (required_string "name" (cr_name body)
              ++ required_string "email" (cr_email body)); [|reflexivity].
  unfold ret, modify, throw. cbn [set_salt env_newId env_now u_id u_email].
  destruct (existsb (fun u => N.eqb (u_id u) _) (users db)); [reflexivity|].
  destruct (existsb (fun u => String.eqb (u_email u) _) (users db));
    reflexivity.
Qed.

(** C4, as the code has it: a registration whose email belongs to a
    stored User is answered 400 'User already exists' and leaves the
    database as it was, so that User is still found, unchanged.  When no
    User has the email and the request carries a non-empty name, a
    non-empty email and a password, a User with the salted hash
    [bcrypt.hash(password, salt)] as password is appended, and the
    response is 201 with the signed token and the view [{ id, name,
    email, isAdmin }], in which the hash does not occur.  When the name
    or the email is missing or empty, the schema's [required] validator
    makes [save] fail, and when the password is missing [bcrypt.hash]
    throws: the answer is 400 and nothing is stored.  In every case the
    response is the same for any other password and salt. *)
Theorem register_behaviour env body db :
  (forall existing,
      User_findOne_email (cr_email body) (users db) = Some existing ->
      let '(res, db') := post_auth_register env body db in
      res = respond_message 400 "User already exists"
      /\ db' = db
      /\ User_findOne_email (cr_email body) (users db') = Some existing)
  /\ (forall name email password,
      User_findOne_email (cr_email body) (users db) = None ->
      cr_name body = Some name -> name <> "" ->
      cr_email body = Some email -> email <> "" ->
      cr_password body = Some password ->
      let '(res, db') := post_auth_register env body db in
      users db' = users db ++ [registered_user env db name email password]
      /\ u_password (registered_user env db name email password)
         = bcrypt_hash password (env_salt env)
      /\ res = {| res_status := 201;
                  res_body :=
                    BAuth (jwt_sign (u_id (registered_user env db name email password))
                                    (JWT_SECRET env) (env_now env))
                          {| pu_id := u_id (registered_user env db name email password);
                             pu_name := name; pu_email := email;
                             pu_isAdmin := false |} |})
  /\ (User_findOne_email (cr_email body) (users db) = None ->
      cr_password body = None
      \/ required_string "name" (cr_name body)
           ++ required_string "email" (cr_email body) <> [] ->
      let '(res, db') := post_auth_register env body db in
      res_status res = 400 /\ db' = db)
  /\ (forall password password' salt',
      cr_password body = Some password ->
      fst (post_auth_register (set_salt salt' env)
             (set_password (Some password') body) db)
      = fst (post_auth_register env body db)).
Proof.
  split; [|split; [|split]].
  - intros existing Hf. rewrite (register_duplicate _ _ _ _ Hf). auto.
  - intros name email password Hf Hn Hne He Hee Hp.
    rewrite (register_fresh _ _ _ _ _ _ Hf Hn Hne He Hee Hp).
    repeat split; reflexivity.
  - intros Hf [Hp|Hbad].
    + rewrite (register_no_password _ _ _ Hf Hp). auto.
    + destruct (cr_password body) as [password|] eqn:Hp.
      * destruct (register_invalid env _ _ _ Hf Hp Hbad) as [m ->]. auto.
      * rewrite (register_no_password _ _ _ Hf Hp). auto.
  - intros password password' salt' Hp.
    now apply register_response_hides_password with password.
Qed.

End Accounts.

(** ** Newsletter *)

Section UpdateFirst.
Context {A : Type} (key : A -> ObjectId) (f : A -> A).
Hypothesis key_f : forall x, key (f x) = key x.

Lemma update_first_length (p : A -> bool) l :
  length (update_first p f l) = length l.
Proof.
  induction l as [|x l IH]; simpl; [reflexivity|].
  destruct (p x); simpl; congruence.
Qed.

Lemma update_first_keys id l :
  map key (update_first (fun x => N.eqb (key x) id) f l) = map key l.
Proof.
  induction l as [|x l IH]; simpl; [reflexivity|].
  destruct (N.eqb (key x) id); simpl; congruence.
Qed.

Lemma update_first_idem id l :
  (forall x, f (f x) = f x) ->
  update_first (fun x => N.eqb (key x) id) f
    (update_first (fun x => N.eqb (key x) id) f l)
  = update_first (fun x => N.eqb (key x) id) f l.
Proof.
  intros Hidem. induction l as [|x l IH]; simpl; [reflexivity|].
  destruct (N.eqb (key x) id) eqn:Hx; simpl.
  - rewrite key_f, Hx. now rewrite Hidem.
  - rewrite Hx. now rewrite IH.
Qed.

(** With unique keys, the first document that [q] selects is the one
    the update by key reaches. *)
Lemma find_update_first (q : A -> bool) l s :
  (forall x, q (f x) = q x) ->
  List.NoDup (map key l) ->
  find q l = Some s ->
  find q (update_first (fun x => N.eqb (key x) (key s)) f l) = Some (f s).
Proof.
  intros Hq. induction l as [|x l IH]; simpl; [discriminate|].
  intros Hnd Hf. inversion Hnd as [|? ? Hnotin Hnd']; subst.
  destruct (q x) eqn:Hqx.
  - injection Hf as ->. rewrite N.eqb_refl. simpl. now rewrite Hq, Hqx.
  - destruct (N.eqb_spec (key x) (key s)) as [Heq|Hne].
    + exfalso. apply Hnotin. rewrite Heq. apply in_map.
      apply find_some in Hf. tauto.
    + simpl. rewrite Hqx. auto.
Qed.

End UpdateFirst.

Section Newsletter.

Lemma Subscriber_findOne_email_In e ss s :
  Subscriber_findOne_email (Some e) ss = Some s -> s_email s = e /\ In s ss.
Proof.
  simpl. intros Hf. apply find_some in Hf as [Hin Heq].
  apply String.eqb_eq in Heq. auto.
Qed.

Lemma Subscriber_findOne_email_None e ss :
  Subscriber_findOne_email (Some e) ss = None ->
  existsb (fun s => String.eqb (s_email s) e) ss = false.
Proof.
  simpl. induction ss as [|s ss IH]; simpl; [reflexivity|].
  destruct (String.eqb (s_email s) e); [discriminate|]. exact IH.
Qed.

(** Saving a changed [active] flag of a document that has an email. *)
Lemma Subscriber_save_active_run s b db :
  s_email s <> "" ->
  Subscriber_save_active s b db
  = (Ok tt, set_subscribers
              (update_first (fun x => N.eqb (s_id x) (s_id s)) (set_active b)
                            (subscribers db)) db).
Proof.
  intros Hs. unfold Subscriber_save_active, bind, validate.
  now rewrite (required_string_ok "email" _ Hs).
Qed.

Lemma subscribe_active env db email s :
  Subscriber_findOne_email (Some email) (subscribers db) = Some s ->
  s_active s = true ->
  post_newsletter env (Some email) db
  = (respond_message 400 "Email already subscribed", db).
Proof.
  intros Hf Ha. unfold post_newsletter, try_catch, bind, gets.
  now rewrite Hf, Ha.
Qed.

Lemma subscribe_inactive env db email s :
  email <> "" ->
  Subscriber_findOne_email (Some email) (subscribers db) = Some s ->
  s_active s = false ->
  post_newsletter env (Some email) db
  = (respond_json (BMessage "Subscription reactivated successfully"),
     set_subscribers
       (update_first (fun x => N.eqb (s_id x) (s_id s)) (set_active true)
                     (subscribers db)) db).
Proof.
  intros He Hf Ha. unfold post_newsletter, try_catch, bind, gets.
  rewrite Hf, Ha.
  apply Subscriber_findOne_email_In in Hf as [Hes _].
  rewrite Subscriber_save_active_run by congruence. reflexivity.
Qed.

Lemma subscribe_new env db email :
  email <> "" ->
  Subscriber_findOne_email (Some email) (subscribers db) = None ->
  post_newsletter env (Some email) db
  = (respond_message 201 "Subscribed successfully",
     set_subscribers
       (subscribers db
        ++ [{| s_id := env_newId env (map s_id (subscribers db));
               s_email := email; s_active := true;
               s_createdAt := env_now env |}]) db).
Proof.
  intros He Hf. unfold post_newsletter, try_catch, bind, gets.
  rewrite Hf. unfold Subscriber_create, bind, gets, validate.
  rewrite (required_string_ok "email" _ He). cbn [ret default s_id s_email].
  unfold id.
  rewrite (existsb_id_false s_id _ _ (env_newId_fresh env (map s_id (subscribers db)))).
  rewrite (Subscriber_findOne_email_None _ _ Hf). reflexivity.
Qed.

Lemma unsubscribe_found db email s :
  s_email s <> "" ->
  Subscriber_findOne_email (Some email) (subscribers db) = Some s ->
  post_newsletter_unsubscribe (Some email) db
  = (respond_json (BMessage "Unsubscribed successfully"),
     set_subscribers
       (update_first (fun x => N.eqb (s_id x) (s_id s)) (set_active false)
                     (subscribers db)) db).
Proof.
  intros He Hf. unfold post_newsletter_unsubscribe, try_catch, bind, gets.
  rewrite Hf. rewrite Subscriber_save_active_run by assumption. reflexivity.
Qed.

Lemma unsubscribe_unknown db email :
  Subscriber_findOne_email email (subscribers db) = None ->
  post_newsletter_unsubscribe email db
  = (respond_message 404 "Subscription not found", db).
Proof.
  intros Hf. unfold post_newsletter_unsubscribe, try_catch, bind, gets.
  now rewrite Hf.
Qed.

(** The update by [_id] leaves the found document first for its
    email. *)
Lemma findOne_after_set_active b email ss s :
  List.NoDup (map s_id ss) ->
  Subscriber_findOne_email (Some email) ss = Some s ->
  Subscriber_findOne_email (Some email)
    (update_first (fun x => N.eqb (s_id x) (s_id s)) (set_active b) ss)
  = Some (set_active b s).
Proof.
  intros Hnd Hf. simpl.
  apply (find_update_first s_id (set_active b)); auto.
Qed.

(** Both newsletter routes keep the collection well formed, so the
    collections these routes build from the empty one are well
    formed. *)
Lemma set_active_wf b id ss :
  Subscribers_wf ss ->
  Subscribers_wf (update_first (fun x => N.eqb (s_id x) id) (set_active b) ss).
Proof.
  intros [Hnd Hvalid]. split.
  - now rewrite (update_first_keys s_id).
  - clear Hnd. induction Hvalid as [|x l Hx Hl IH]; cbn [update_first];
      [constructor|].
    destruct (N.eqb (s_id x) id); constructor; auto.
Qed.

Lemma Subscriber_save_active_wf s b db :
  Subscribers_wf (subscribers db) ->
  Subscribers_wf (subscribers (snd (Subscriber_save_active s b db))).
Proof.
  intros Hwf. unfold Subscriber_save_active, bind, validate.
  destruct (required_string "email" (Some (s_email s))); cbn; [|exact Hwf].
  now apply set_active_wf.
Qed.

Lemma post_newsletter_unsubscribe_wf email db :
  Subscribers_wf (subscribers db) ->
  Subscribers_wf (subscribers (snd (post_newsletter_unsubscribe email db))).
Proof.
  intros Hwf. unfold post_newsletter_unsubscribe, try_catch, bind, gets.
  destruct (Subscriber_findOne_email email (subscribers db)) as [s|];
    [|exact Hwf].
  pose proof (Subscriber_save_active_wf s false db Hwf) as Hsave.
  destruct (Subscriber_save_active s false db) as [[[]|e] db']; exact Hsave.
Qed.

Lemma Subscriber_create_wf env email db :
  Subscribers_wf (subscribers db) ->
  Subscribers_wf (subscribers (snd (Subscriber_create env email db))).
Proof.
  intros Hwf. unfold Subscriber_create, bind, gets, validate.
  destruct email as [e|]; cbn [required_string]; [|exact Hwf].
  destruct (String.eqb_spec e "") as [->|He]; [exact Hwf|].
  cbn [ret default s_id s_email]. unfold id.
  destruct (existsb _ (subscribers db)); [exact Hwf|].
  destruct (existsb _ (subscribers db)); [exact Hwf|].
  destruct Hwf as [Hnd Hvalid]. cbn. split.
  - rewrite map_app. apply List.NoDup_app; [exact Hnd| |].
    + cbn. constructor; [tauto|constructor].
    + intros a Ha [<-|[]]. now apply (env_newId_fresh env) in Ha.
  - apply List.Forall_app. split; [exact Hvalid|]. repeat constructor. exact He.
Qed.

Lemma post_newsletter_wf env email db :
  Subscribers_wf (subscribers db) ->
  Subscribers_wf (subscribers (snd (post_newsletter env email db))).
Proof.
  intros Hwf. unfold post_newsletter, try_catch, bind, gets.
  destruct (Subscriber_findOne_email email (subscribers db)) as [s|].
  - destruct (s_active s); [exact Hwf|].
    pose proof (Subscriber_save_active_wf s true db Hwf) as Hsave.
    destruct (Subscriber_save_active s true db) as [[[]|e] db']; exact Hsave.
  - pose proof (Subscriber_create_wf env email db Hwf) as Hnew.
    destruct (Subscriber_create env email db) as [[s|e] db']; exact Hnew.
Qed.

(** The update touches only the document with the given [_id]. *)
Lemma update_first_others {A} (key : A -> ObjectId) (f : A -> A) id l x :
  In x l -> key x <> id ->
  In x (update_first (fun y => N.eqb (key y) id) f l).
Proof.
  intros Hin Hne. induction l as [|y l IH]; [contradiction|].
  cbn [update_first]. destruct (N.eqb_spec (key y) id) as [Heq|_].
  - destruct Hin as [->|Hin]; [contradiction|now right].
  - destruct Hin as [->|Hin]; [now left|right; auto].
Qed.

(** C8: for every email address, that is, every non-empty string.
    Subscribing an email that has an active record is answered 400
    'Email already subscribed' and changes nothing.  Subscribing an
    email whose record is inactive reactivates that record and creates
    none: the collection keeps its length, ids and emails, every other
    record is still there, and the record found for the email has the
    old [_id], email and creation date, with [active] true.  Subscribing
    an email that has no record appends one record with [active] true.
    Unsubscribing an email that has no record is answered 404
    'Subscription not found' and changes nothing. *)
Theorem newsletter_subscribe_behaviour env db email :
  email <> "" ->
  (forall s,
      Subscriber_findOne_email (Some email) (subscribers db) = Some s ->
      s_active s = true ->
      post_newsletter env (Some email) db
      = (respond_message 400 "Email already subscribed", db))
  /\ (forall s,
      List.NoDup (map s_id (subscribers db)) ->
      Subscriber_findOne_email (Some email) (subscribers db) = Some s ->
      s_active s = false ->
      let '(res, db') := post_newsletter env (Some email) db in
      res = respond_json (BMessage "Subscription reactivated successfully")
      /\ length (subscribers db') = length (subscribers db)
      /\ map s_id (subscribers db') = map s_id (subscribers db)
      /\ map s_email (subscribers db') = map s_email (subscribers db)
      /\ Subscriber_findOne_email (Some email) (subscribers db')
         = Some {| s_id := s_id s; s_email := email; s_active := true;
                   s_createdAt := s_createdAt s |}
      /\ (forall x, In x (subscribers db) -> s_id x <> s_id s ->
                    In x (subscribers db')))
  /\ (Subscriber_findOne_email (Some email) (subscribers db) = None ->
      post_newsletter env (Some email) db
      = (respond_message 201 "Subscribed successfully",
         set_subscribers
           (subscribers db
            ++ [{| s_id := env_newId env (map s_id (subscribers db));
                   s_email := email; s_active := true;
                   s_createdAt := env_now env |}]) db))
  /\ (Subscriber_findOne_email (Some email) (subscribers db) = None ->
      post_newsletter_unsubscribe (Some email) db
      = (respond_message 404 "Subscription not found", db)).
Proof.
  intros He. split; [|split; [|split]].
  - intros s Hf Ha. now apply subscribe_active with s.
  - intros s Hnd Hf Ha.
    rewrite (subscribe_inactive env _ _ _ He Hf Ha). cbn [subscribers set_subscribers].
    split; [reflexivity|]. split; [apply update_first_length|].
    split; [now apply update_first_keys|]. split; [|split].
    + clear. induction (subscribers db) as [|x l IH]; simpl; [reflexivity|].
      destruct (N.eqb (s_id x) (s_id s)); simpl; congruence.
    + rewrite (findOne_after_set_active true _ _ _ Hnd Hf).
      apply Subscriber_findOne_email_In in Hf as [<- _]. reflexivity.
    + intros x Hin Hne. now apply (update_first_others s_id).
  - now apply subscribe_new.
  - apply unsubscribe_unknown.
Qed.

(** C10: on a well-formed subscriber collection (unique [_id], every
    document with its required email), unsubscribing an email that has
    a record twice in a row succeeds both times with 'Unsubscribed
    successfully'; the second call leaves the database exactly as the
    first left it; after either call the record found for the email has
    the old [_id], email and creation date, with [active] false; and no
    record was removed: the collection keeps its length and its ids. *)
Theorem unsubscribe_twice db email s :
  Subscribers_wf (subscribers db) ->
  Subscriber_findOne_email (Some email) (subscribers db) = Some s ->
  let '(res1, db1) := post_newsletter_unsubscribe (Some email) db in
  let '(res2, db2) := post_newsletter_unsubscribe (Some email) db1 in
  res1 = respond_json (BMessage "Unsubscribed successfully")
  /\ res2 = res1
  /\ db2 = db1
  /\ Subscriber_findOne_email (Some email) (subscribers db1)
     = Some {| s_id := s_id s; s_email := email; s_active := false;
               s_createdAt := s_createdAt s |}
  /\ Subscriber_findOne_email (Some email) (subscribers db2)
     = Some {| s_id := s_id s; s_email := email; s_active := false;
               s_createdAt := s_createdAt s |}
  /\ length (subscribers db1) = length (subscribers db)
  /\ map s_id (subscribers db2) = map s_id (subscribers db).
Proof.
  intros [Hnd Hvalid] Hf.
  assert (Hs : s_email s <> "").
  { apply Subscriber_findOne_email_In in Hf as [_ Hin].
    rewrite List.Forall_forall in Hvalid. now apply Hvalid. }
  assert (Hemail : s_email s = email)
    by now apply Subscriber_findOne_email_In in Hf.
  rewrite (unsubscribe_found _ _ _ Hs Hf).
  pose proof (findOne_after_set_active false _ _ _ Hnd Hf) as Hf1.
  rewrite (unsubscribe_found _ email (set_active false s)); [|exact Hs|exact Hf1].
  cbn [subscribers set_subscribers s_id set_active].
  rewrite (update_first_idem s_id (set_active false)) by reflexivity.
  unfold set_active in Hf1 at 2. rewrite Hemail in Hf1.
  split; [reflexivity|]. split; [reflexivity|]. split; [reflexivity|].
  split; [exact Hf1|]. split; [exact Hf1|].
  split; [apply update_first_length|now apply update_first_keys].
Qed.

End Newsletter.

(** ** Orders *)

Section Orders.
Context {L : Lib} {O : OrderModel}.

(** Every answer of [auth] itself is a 401. *)
Lemma auth_Respond env authorization db r :
  auth env authorization db = Respond r -> res_status r = 401.
Proof.
  unfold auth.
  destruct (negb (truthy_string (js_replace "Bearer " "" <$> authorization)));
    [now intros [= <-]|].
  destruct (jwt_verify _ _ _) as [userId|]; [|now intros [= <-]].
  destruct (oid_of_string userId) as [id|]; [|now intros [= <-]].
  destruct (User_findById id (users db)); [discriminate|now intros [= <-]].
Qed.

(** The [user] key written after the spread is the one the schema
    reads. *)
Lemma new_Order_stamped env used body uid order :
  new_Order env used (<["user" := VOid uid]> body) = Ok order ->
  o_user order = uid.
Proof.
  apply new_Order_user. apply lookup_insert_eq.
Qed.

Lemma post_orders_handler_run env body user db :
  post_orders_handler env body user db
  = match new_Order env (map o_id (orders db))
            (<["user" := VOid (u_id user)]> body) with
    | Throw message => (respond_message 400 message, db)
    | Ok order =>
        if existsb (fun o => N.eqb (o_id o) (o_id order)) (orders db)
        then (respond_message 400 (duplicate_key_message "_id_"), db)
        else ({| res_status := 201; res_body := BOrder order |},
              set_orders (orders db ++ [order]) db)
    end.
Proof.
  unfold post_orders_handler, try_catch, Order_create, bind, lift, gets.
  destruct (new_Order env _ _) as [order|message]; [|reflexivity].
  now destruct (existsb _ (orders db)).
Qed.

(** C5: when an order creation is answered 201, the request passed
    [auth] with some user, exactly one order was appended to the
    collection, its [user] is that user's [_id], and it is the order the
    response carries.  The body is arbitrary, a [user] key in it is
    overwritten, and so is the Order model: whichever bodies it accepts
    and however it casts, wraps and defaults them, the [user] the route
    writes is the one it stores. *)
Theorem created_order_owner env authorization body db :
  res_status (fst (post_orders env authorization body db)) = 201 ->
  exists user order,
    auth env authorization db = Next user
    /\ orders (snd (post_orders env authorization body db)) = orders db ++ [order]
    /\ o_user order = u_id user
    /\ res_body (fst (post_orders env authorization body db)) = BOrder order.
Proof.
  unfold post_orders, with_auth.
  destruct (auth env authorization db) as [user|r] eqn:Hauth.
  - rewrite post_orders_handler_run.
    destruct (new_Order env _ _) as [order|message] eqn:Hnew; [|discriminate].
    destruct (existsb _ (orders db)); [discriminate|].
    intros _. exists user, order. cbn [fst snd orders set_orders res_body].
    repeat split. now apply new_Order_stamped in Hnew.
  - cbn [fst]. intros Hs. apply auth_Respond in Hauth. congruence.
Qed.

Lemma Order_findById_id id os o :
  Order_findById id os = Some o -> o_id o = id /\ In o os.
Proof.
  unfold Order_findById. intros Hf. apply find_some in Hf as [Hin Heq].
  apply N.eqb_eq in Heq. auto.
Qed.

Lemma get_orders_id_malformed id user db :
  oid_of_string id = None ->
  get_orders_id_handler id user db
  = (respond_message 500 "Cast to ObjectId failed", db).
Proof.
  intros Hc. unfold get_orders_id_handler, try_catch, bind, lift, cast_param_id.
  now rewrite Hc.
Qed.

Lemma get_orders_id_missing id oid user db :
  oid_of_string id = Some oid ->
  Order_findById oid (orders db) = None ->
  get_orders_id_handler id user db = (respond_message 404 "Order not found", db).
Proof.
  intros Hc Hf.
  unfold get_orders_id_handler, try_catch, bind, lift, gets, cast_param_id.
  now rewrite Hc, Hf.
Qed.

Lemma get_orders_id_found id oid user db order :
  oid_of_string id = Some oid ->
  Order_findById oid (orders db) = Some order ->
  get_orders_id_handler id user db
  = (if u_isAdmin user
     then respond_json (BPopulatedOrder (populate_order db order))
     else
       match User_findById (o_user order) (users db) with
       | None => respond_message 500 "Cannot read property '_id' of null"
       | Some _ =>
           if N.eqb (o_user order) (u_id user)
           then respond_json (BPopulatedOrder (populate_order db order))
           else respond_message 403 "Not authorized"
       end,
     db).
Proof.
  intros Hc Hf.
  unfold get_orders_id_handler, try_catch, bind, lift, gets, cast_param_id.
  rewrite Hc, Hf. cbn [fmap option_fmap option_map].
  destruct (u_isAdmin user); [reflexivity|]. cbn [negb].
  unfold populate_order at 1. cbn [po_user]. unfold populate_user.
  destruct (User_findById (o_user order) (users db)) as [owner|] eqn:Ho;
    [|reflexivity].
  cbn [fmap option_fmap option_map get_user_id exc_bind ur_id].
  apply User_findById_id in Ho as [-> _].
  now destruct (N.eqb (o_user order) (u_id user)).
Qed.

(** An order whose owner no longer resolves, asked for by a user who is
    not an admin: [order.user] is null and the comparison throws, so the
    answer is the 500 of the [catch], not a 403. *)
Lemma get_orders_id_dangling_owner id oid user db order :
  oid_of_string id = Some oid ->
  Order_findById oid (orders db) = Some order ->
  u_isAdmin user = false ->
  User_findById (o_user order) (users db) = None ->
  get_orders_id_handler id user db
  = (respond_message 500 "Cannot read property '_id' of null", db).
Proof.
  intros Hc Hf Ha Ho. rewrite (get_orders_id_found _ _ _ _ _ Hc Hf).
  now rewrite Ha, Ho.
Qed.

(** C1, as the code has it, for a request that passed [auth].  An id
    parameter that is no ObjectId is answered 500.  For a well-formed
    id: no order with the id gives 404 'Order not found'; an order of
    another user, whose owner is still stored, asked for by a user who
    is not an admin gives 403 'Not authorized'; the owner and every
    admin get the order, with its references populated.  The database
    is never changed. *)
Theorem get_order_by_id_behaviour env authorization id db user :
  auth env authorization db = Next user ->
  (oid_of_string id = None ->
   exists message,
     get_orders_id env authorization id db = (respond_message 500 message, db))
  /\ (forall oid,
      oid_of_string id = Some oid ->
      (Order_findById oid (orders db) = None ->
       get_orders_id env authorization id db
       = (respond_message 404 "Order not found", db))
      /\ (forall order,
          Order_findById oid (orders db) = Some order ->
          (u_isAdmin user = false ->
           o_user order <> u_id user ->
           is_Some (User_findById (o_user order) (users db)) ->
           get_orders_id env authorization id db
           = (respond_message 403 "Not authorized", db))
          /\ (u_isAdmin user = true \/ o_user order = u_id user ->
              get_orders_id env authorization id db
              = (respond_json (BPopulatedOrder (populate_order db order)), db)))).
Proof.
  intros Hauth. unfold get_orders_id, with_auth. rewrite Hauth. split.
  { intros Hc. rewrite (get_orders_id_malformed _ _ _ Hc). eauto. }
  intros oid Hc. split.
  - now apply get_orders_id_missing.
  - intros order Hf. rewrite (get_orders_id_found _ _ _ _ _ Hc Hf). split.
    + intros Ha Hne [owner Ho]. rewrite Ha, Ho.
      destruct (N.eqb_spec (o_user order) (u_id user)); [contradiction|reflexivity].
    + intros [Ha|Hown].
      * now rewrite Ha.
      * destruct (u_isAdmin user); [reflexivity|].
        rewrite Hown, (auth_Next _ _ _ _ Hauth). now rewrite N.eqb_refl.
Qed.

End Orders.

(** ** Dashboard: revenue *)

Section Revenue.

(** Filtering first and adding afterwards is going through all the
    orders and adding only the completed ones, from any starting sum.
    No law of arithmetic is used: the additions are the same, in the
    same order. *)
Lemma totalRevenue_from (sum : float) (os : list Order) :
  fold_left (fun sum order => (sum + o_totalAmount order)%float)
            (Order_find_paymentStatus "completed" os) sum
  = add_completed sum os.
Proof.
  revert sum. induction os as [|o os IH]; intros sum; [reflexivity|].
  unfold Order_find_paymentStatus in *. cbn [List.filter add_completed].
  destruct (has_paymentStatus "completed" o); cbn [fold_left]; apply IH.
Qed.

Lemma revenue_refines os :
  totalRevenue (Order_find_paymentStatus "completed" os) = revenue_of_completed os.
Proof.
  apply totalRevenue_from.
Qed.

(** The same step for any number type and any addition. *)
Lemma reduce_completed_any_number {Num : Type} (add : Num -> Num -> Num)
    (amount : Order -> Num) (os : list Order) (acc : Num) :
  fold_left (fun sum order => add sum (amount order))
            (Order_find_paymentStatus "completed" os) acc
  = fold_left (fun sum order =>
                 if has_paymentStatus "completed" order
                 then add sum (amount order) else sum) os acc.
Proof.
  revert acc. induction os as [|o os IH]; intros acc; [reflexivity|].
  unfold Order_find_paymentStatus in *. cbn [List.filter fold_left].
  destruct (has_paymentStatus "completed" o); cbn [fold_left];
    apply IH.
Qed.

Lemma add_completed_app sum os1 os2 :
  add_completed sum (os1 ++ os2) = add_completed (add_completed sum os1) os2.
Proof.
  revert sum. induction os1 as [|o os1 IH]; intros sum; [reflexivity|].
  cbn [app add_completed]. apply IH.
Qed.

Lemma has_paymentStatus_spec status o :
  has_paymentStatus status o = true <-> o_paymentStatus o = Some status.
Proof.
  unfold has_paymentStatus. destruct (o_paymentStatus o) as [s|].
  - rewrite String.eqb_eq. split; [now intros ->|now intros [= ->]].
  - split; discriminate.
Qed.

(** The total after the orders [before] and one more order. *)
Lemma dashboard_revenue_total_app before after db :
  dashboard_revenue_total (set_orders (before ++ after) db)
  = add_completed (dashboard_revenue_total (set_orders before db)) after.
Proof.
  unfold dashboard_revenue_total. cbn [orders set_orders].
  rewrite !revenue_refines. apply add_completed_app.
Qed.

(** C6: the revenue total of the dashboard is the sum of [totalAmount]
    over the orders whose [paymentStatus] is "completed", added as
    doubles in the order of the collection.  An order with another
    status (or none) adds nothing: taking it out of the collection
    leaves the total as it is.  A completed order adds its amount, in
    one addition, to the total of the orders before it, and the orders
    after it are added to that. *)
Theorem revenue_total_completed_only db :
  dashboard_revenue_total db = revenue_of_completed (orders db)
  /\ (forall before order after,
      orders db = before ++ order :: after ->
      o_paymentStatus order <> Some "completed" ->
      dashboard_revenue_total db
      = dashboard_revenue_total (set_orders (before ++ after) db))
  /\ (forall before order after,
      orders db = before ++ order :: after ->
      o_paymentStatus order = Some "completed" ->
      dashboard_revenue_total db
      = add_completed
          (dashboard_revenue_total (set_orders before db)
           + o_totalAmount order)%float
          after)
  /\ (forall before order,
      orders db = before ++ [order] ->
      o_paymentStatus order = Some "completed" ->
      dashboard_revenue_total db
      = (dashboard_revenue_total (set_orders before db)
         + o_totalAmount order)%float).
Proof.
  assert (Hstep : forall before order after,
             orders db = before ++ order :: after ->
             dashboard_revenue_total db
             = add_completed
                 (if has_paymentStatus "completed" order
                  then (dashboard_revenue_total (set_orders before db)
                        + o_totalAmount order)%float
                  else dashboard_revenue_total (set_orders before db))
                 after).
  { intros before order after Ho.
    replace db with (set_orders (before ++ order :: after) db) at 1
      by (destruct db; cbn in *; now rewrite Ho).
    now rewrite dashboard_revenue_total_app. }
  split; [apply revenue_refines|].
  split; [|split].
  - intros before order after Ho Hs. rewrite (Hstep _ _ _ Ho).
    rewrite dashboard_revenue_total_app.
    destruct (has_paymentStatus "completed" order) eqn:Hc; [|reflexivity].
    apply has_paymentStatus_spec in Hc. contradiction.
  - intros before order after Ho Hs. rewrite (Hstep _ _ _ Ho).
    apply has_paymentStatus_spec in Hs. now rewrite Hs.
  - intros before order Ho Hs. rewrite (Hstep _ _ _ Ho).
    apply has_paymentStatus_spec in Hs. now rewrite Hs.
Qed.

End Revenue.

(** ** Dashboard: popular products *)

Section Popular.

Lemma quantity_of_cons li id rest :
  quantity_of id (li :: rest)
  = ((if N.eqb (li_product li) id then li_quantity li else 0)
     + quantity_of id rest)%Z.
Proof.
  unfold quantity_of. cbn [List.filter].
  now destruct (N.eqb (li_product li) id).
Qed.

Lemma existsb_seen id (seen : list ObjectId) :
  existsb (N.eqb id) seen = true <-> In id seen.
Proof.
  rewrite existsb_exists. split.
  - intros [x [Hin Heq]]. apply N.eqb_eq in Heq. now subst.
  - intros Hin. exists id. split; [assumption|apply N.eqb_refl].
Qed.

Lemma group_run_ids items : forall seen id,
  In id (map g_id (group_run items seen))
  <-> In id (map li_product items) /\ ~ In id seen.
Proof.
  induction items as [|li rest IH]; intros seen id; cbn [group_run map In].
  - tauto.
  - destruct (existsb (N.eqb (li_product li)) seen) eqn:Hseen.
    + apply existsb_seen in Hseen. rewrite IH.
      split; [tauto|]. intros [[<-|Hin] Hn]; [contradiction|tauto].
    + assert (Hnot : ~ In (li_product li) seen).
      { intros Hin. apply existsb_seen in Hin. congruence. }
      cbn [map In g_id]. rewrite IH. cbn [In].
      destruct (N.eq_dec (li_product li) id) as [<-|Hne]; tauto.
Qed.

Lemma group_run_NoDup items : forall seen,
  List.NoDup (map g_id (group_run items seen)).
Proof.
  induction items as [|li rest IH]; intros seen; cbn [group_run map].
  - constructor.
  - destruct (existsb (N.eqb (li_product li)) seen); [apply IH|].
    cbn [map g_id]. constructor; [|apply IH].
    rewrite group_run_ids. cbn [In]. tauto.
Qed.

Lemma group_run_counts items : forall seen,
  Forall (fun g => g_count g = quantity_of (g_id g) items) (group_run items seen).
Proof.
  induction items as [|li rest IH]; intros seen; cbn [group_run].
  - constructor.
  - assert (Hrest : forall seen',
               In (li_product li) seen' ->
               Forall (fun g => g_count g = quantity_of (g_id g) (li :: rest))
                      (group_run rest seen')).
    { intros seen' Hin. apply List.Forall_forall. intros g Hg.
      pose proof (IH seen') as Hall. rewrite List.Forall_forall in Hall.
      rewrite (Hall g Hg), quantity_of_cons.
      assert (Hid : In (g_id g) (map g_id (group_run rest seen')))
        by now apply in_map.
      apply group_run_ids in Hid as [_ Hnot].
      destruct (N.eqb_spec (li_product li) (g_id g)) as [Heq|_]; [|lia].
      rewrite Heq in Hin. contradiction. }
    destruct (existsb (N.eqb (li_product li)) seen) eqn:Hseen.
    + apply Hrest. now apply existsb_seen.
    + constructor; [reflexivity|]. apply Hrest. now left.
Qed.

Lemma group_run_stage items : group_stage items (group_run items []).
Proof.
  split; [apply group_run_NoDup|]. split; [|apply group_run_counts].
  intros id. rewrite group_run_ids. cbn [In]. tauto.
Qed.

Lemma insert_desc_Permutation g l : Permutation (g :: l) (insert_desc g l).
Proof.
  induction l as [|h t IH]; cbn [insert_desc]; [reflexivity|].
  destruct (g_count h <? g_count g)%Z; [reflexivity|].
  rewrite perm_swap. now constructor.
Qed.

Lemma insert_desc_sorted g l :
  StronglySorted count_ge l -> StronglySorted count_ge (insert_desc g l).
Proof.
  induction 1 as [|h t Hs IH Hh]; cbn [insert_desc].
  - repeat constructor.
  - destruct (Z.ltb_spec (g_count h) (g_count g)) as [Hlt|Hge].
    + constructor; [now constructor|].
      constructor; [unfold count_ge; lia|].
      eapply Forall_impl; [exact Hh|]. unfold count_ge. intros x Hx. lia.
    + constructor; [exact IH|].
      rewrite <- insert_desc_Permutation. constructor; [exact Hge|exact Hh].
Qed.

Lemma sort_run_stage l : sort_stage l (sort_run l).
Proof.
  unfold sort_stage, sort_run. induction l as [|g l [IHp IHs]]; cbn [fold_right].
  - split; [reflexivity|constructor].
  - split; [|now apply insert_desc_sorted].
    rewrite <- insert_desc_Permutation. now constructor.
Qed.

(** The pipeline has a result on every collection: the run above is
    one. *)
Lemma aggregate_popular_run_sound os :
  aggregate_popular os (aggregate_popular_run os).
Proof.
  exists (group_run (unwind os) []), (sort_run (group_run (unwind os) [])).
  split; [apply group_run_stage|]. split; [apply sort_run_stage|reflexivity].
Qed.

Lemma popularProducts_run_sound db :
  popularProducts db (popularProducts_run db).
Proof.
  exists (aggregate_popular_run (orders db)).
  split; [apply aggregate_popular_run_sound|reflexivity].
Qed.

Lemma group_stage_In items groups g :
  group_stage items groups -> In g groups ->
  In (g_id g) (map li_product items)
  /\ g_count g = quantity_of (g_id g) items.
Proof.
  intros (_ & Hids & Hcnt) Hin. split.
  - apply Hids. now apply in_map.
  - rewrite List.Forall_forall in Hcnt. now apply Hcnt.
Qed.

Lemma group_stage_incl items groups1 groups2 g :
  group_stage items groups1 -> group_stage items groups2 ->
  In g groups1 -> In g groups2.
Proof.
  intros H1 H2 Hin. destruct (group_stage_In _ _ _ H1 Hin) as [Hid Hc].
  destruct H2 as (Hnd2 & Hids2 & Hcnt2).
  apply Hids2, in_map_iff in Hid as (g' & Hg' & Hin').
  rewrite List.Forall_forall in Hcnt2. pose proof (Hcnt2 g' Hin') as Hc'.
  rewrite Hg', <- Hc in Hc'.
  destruct g as [i c], g' as [i' c']; cbn in *.
  rewrite Hg', Hc' in Hin'. exact Hin'.
Qed.

(** Two outputs of [$group] on the same input hold the same documents. *)
Lemma group_stage_Permutation items groups1 groups2 :
  group_stage items groups1 -> group_stage items groups2 ->
  Permutation groups1 groups2.
Proof.
  intros H1 H2. apply Permutation.NoDup_Permutation.
  - destruct H1 as (Hnd & _). now apply NoDup_map_inv in Hnd.
  - destruct H2 as (Hnd & _). now apply NoDup_map_inv in Hnd.
  - intros g. split; eauto using group_stage_incl.
Qed.

Lemma StronglySorted_map {A B} (f : A -> B) (R : B -> B -> Prop) l :
  StronglySorted (fun a b => R (f a) (f b)) l -> StronglySorted R (map f l).
Proof.
  induction 1 as [|x l Hs IH Hx]; cbn [map]; constructor; [exact IH|].
  apply List.Forall_forall. intros y Hy. apply in_map_iff in Hy as (z & <- & Hz).
  rewrite List.Forall_forall in Hx. now apply Hx.
Qed.

Lemma populate_popular_counts ps agg :
  map pp_count (populate_popular ps agg) = map g_count agg.
Proof.
  unfold populate_popular. rewrite map_map. reflexivity.
Qed.

(** What every result of the aggregation satisfies. *)
Lemma aggregate_popular_facts os agg :
  aggregate_popular os agg ->
  length agg <= 5
  /\ StronglySorted count_ge agg
  /\ List.NoDup (map g_id agg)
  /\ Forall (fun g => In (g_id g) (map li_product (unwind os))
                      /\ g_count g = quantity_of (g_id g) (unwind os)) agg
  /\ (forall id g,
        In id (map li_product (unwind os)) ->
        ~ In id (map g_id agg) ->
        In g agg ->
        (quantity_of id (unwind os) <= g_count g)%Z).
Proof.
  intros (groups & sorted & Hgroup & (Hperm & Hsorted) & ->).
  unfold limit_stage.
  pose proof (firstn_skipn 5 sorted) as Hsplit.
  split; [apply firstn_le_length|]. split.
  { rewrite <- Hsplit in Hsorted. now apply StronglySorted_app_1_l in Hsorted. }
  split.
  { destruct Hgroup as (Hnd & _).
    apply (Permutation_NoDup (Permutation_map g_id Hperm)) in Hnd.
    rewrite <- Hsplit, map_app in Hnd. now apply NoDup_app_remove_r in Hnd. }
  split.
  { apply List.Forall_forall. intros g Hg.
    apply (group_stage_In _ groups); [assumption|].
    apply (Permutation_in _ (Permutation_sym Hperm)).
    rewrite <- Hsplit. apply in_or_app. now left. }
  intros id g Hid Hnot Hg.
  destruct Hgroup as (Hnd & Hids & Hcnt).
  apply Hids in Hid.
  apply (Permutation_in _ (Permutation_map g_id Hperm)) in Hid.
  apply in_map_iff in Hid as (g0 & Hg0 & Hin0).
  assert (Hc0 : g_count g0 = quantity_of id (unwind os)).
  { rewrite List.Forall_forall in Hcnt. rewrite <- Hg0. apply Hcnt.
    now apply (Permutation_in _ (Permutation_sym Hperm)). }
  rewrite <- Hsplit in Hin0. apply in_app_or in Hin0 as [Hfirst|Hrest].
  - exfalso. apply Hnot. rewrite <- Hg0. now apply in_map.
  - rewrite <- Hsplit in Hsorted. rewrite <- Hc0.
    apply (StronglySorted_app_1_elem_of _ _ _ g g0 Hsorted);
      now apply list_elem_of_In.
Qed.

(** The counts of the ranking do not depend on how the engine orders
    equal counts. *)
Lemma aggregate_popular_counts_unique os agg1 agg2 :
  aggregate_popular os agg1 -> aggregate_popular os agg2 ->
  map g_count agg1 = map g_count agg2.
Proof.
  intros (groups1 & sorted1 & Hg1 & (Hp1 & Hs1) & ->)
         (groups2 & sorted2 & Hg2 & (Hp2 & Hs2) & ->).
  unfold limit_stage. rewrite <- !firstn_map. f_equal.
  apply (StronglySorted_unique_strong (fun a b : Z => (b <= a)%Z)).
  - intros x1 x2 _ _ ? ?. lia.
  - now apply StronglySorted_map.
  - now apply StronglySorted_map.
  - apply Permutation_map.
    rewrite <- Hp1, <- Hp2. eapply group_stage_Permutation; eassumption.
Qed.

(** What the contracts of the four stages give of every list they hold
    of: at most five entries, in non-increasing order of [count]; the
    entries are distinct products that occur in some order, each with
    the sum of its quantities over the line items of all orders; a
    product left out has a sum no larger than any count listed; and the
    sequence of counts is the same for every such list. *)
Lemma popularProducts_ranking db result :
  popularProducts db result ->
  length result <= 5
  /\ StronglySorted pp_count_ge result
  /\ (exists agg,
        result = populate_popular (products db) agg
        /\ List.NoDup (map g_id agg)
        /\ Forall (fun g =>
                     In (g_id g) (map li_product (unwind (orders db)))
                     /\ g_count g = quantity_of (g_id g) (unwind (orders db)))
                  agg
        /\ (forall id g,
              In id (map li_product (unwind (orders db))) ->
              ~ In id (map g_id agg) ->
              In g agg ->
              (quantity_of id (unwind (orders db)) <= g_count g)%Z))
  /\ (forall result',
        popularProducts db result' ->
        map pp_count result' = map pp_count result).
Proof.
  intros (agg & Hagg & ->).
  destruct (aggregate_popular_facts _ _ Hagg) as (Hlen & Hsorted & Hnd & Hall & Htop).
  split; [unfold populate_popular; now rewrite length_map|].
  split.
  { unfold populate_popular. apply StronglySorted_map. exact Hsorted. }
  split; [exists agg; auto|].
  intros result' (agg' & Hagg' & ->).
  rewrite !populate_popular_counts.
  eapply aggregate_popular_counts_unique; eassumption.
Qed.



End Popular.

(** ** The theorems at work on the sample data *)

Section Examples.
Import Sample.

(** Ann's token is still valid, her account is gone. *)
Lemma auth_unresolved_user_witness :
  auth (L := Toy.lib) Toy.env (Some ann_header) empty
  = Respond (respond_message 401 "User not found").
Proof.
  refine (auth_unresolved_user (L := Toy.lib) Toy.env ann_header empty
            "000000000000000000000064" _ _ _).
  - vm_compute. discriminate.
  - vm_compute. reflexivity.
  - intros id _. reflexivity.
Defined.

(** An unknown email, and Ann's email with a wrong password. *)
Lemma login_failures_identical_witness :
  post_auth_login (L := Toy.lib) Toy.env
    {| cr_name := None; cr_email := Some "nobody@x.com"; cr_password := Some "pw" |}
    shop
  = (respond_message 400 "Invalid credentials", shop)
  /\ post_auth_login (L := Toy.lib) Toy.env
       {| cr_name := None; cr_email := Some "ann@x.com"; cr_password := Some "pW" |}
       shop
     = post_auth_login (L := Toy.lib) Toy.env
         {| cr_name := None; cr_email := Some "nobody@x.com";
            cr_password := Some "pw" |}
         shop.
Proof.
  apply (login_failures_identical (L := Toy.lib) Toy.env Toy.env shop _ _ ann "pW");
    vm_compute; reflexivity.
Defined.

(** Registering Ann's email again, and registering a new user. *)
Lemma register_behaviour_witness :
  post_auth_register (L := Toy.lib) Toy.env
    {| cr_name := Some "Ann B"; cr_email := Some "ann@x.com"; cr_password := Some "x" |}
    shop
  = (respond_message 400 "User already exists", shop)
  /\ users (snd (post_auth_register (L := Toy.lib) Toy.env
                   {| cr_name := Some "Cid"; cr_email := Some "cid@x.com";
                      cr_password := Some "pw" |} shop))
     = [ann; bob;
        {| u_id := 102; u_name := "Cid"; u_email := "cid@x.com";
           u_password := "salt$pw"; u_isAdmin := false;
           u_createdAt := 1700000000 |}].
Proof.
  split.
  - pose proof (proj1 (register_behaviour (L := Toy.lib) Toy.env
                         {| cr_name := Some "Ann B"; cr_email := Some "ann@x.com";
                            cr_password := Some "x" |} shop) ann) as Hdup.
    destruct (post_auth_register _ _ _) as [res db'].
    destruct Hdup as (-> & -> & _); reflexivity.
  - pose proof (proj1 (proj2 (register_behaviour (L := Toy.lib) Toy.env
                         {| cr_name := Some "Cid"; cr_email := Some "cid@x.com";
                            cr_password := Some "pw" |} shop))
                  "Cid" "cid@x.com" "pw") as Hnew.
    destruct (post_auth_register _ _ _) as [res db']. cbn [snd].
    destruct Hnew as (-> & _); try reflexivity; discriminate.
Defined.

(** No user has the email, the name is missing: nothing is stored and
    no token is returned. *)
Lemma register_missing_name_counterexample :
  User_findOne_email (Some "cid@x.com") (users shop) = None
  /\ res_status
       (fst (post_auth_register (L := Toy.lib) Toy.env
               {| cr_name := None; cr_email := Some "cid@x.com";
                  cr_password := Some "pw" |} shop)) = 400
  /\ users
       (snd (post_auth_register (L := Toy.lib) Toy.env
               {| cr_name := None; cr_email := Some "cid@x.com";
                  cr_password := Some "pw" |} shop)) = users shop.
Proof. repeat split; vm_compute; reflexivity. Qed.

(** Ann orders with a body that names Bob as the owner. *)
Lemma created_order_owner_witness :
  exists user order,
    auth (L := Toy.lib) Toy.env (Some ann_header) shop = Next user
    /\ orders (snd (post_orders (L := Toy.lib) (O := Toy.orders_model) Toy.env (Some ann_header)
                      order_body shop))
       = orders shop ++ [order]
    /\ o_user order = u_id user
    /\ res_body (fst (post_orders (L := Toy.lib) (O := Toy.orders_model) Toy.env (Some ann_header)
                        order_body shop))
       = BOrder order.
Proof.
  apply (created_order_owner (L := Toy.lib) (O := Toy.orders_model) Toy.env (Some ann_header)
           order_body shop).
  vm_compute. reflexivity.
Defined.

Example created_order_overrides_body_user :
  order_body !! "user" = Some (VStr "000000000000000000000065")
  /\ oid_of_string (Lib := Toy.lib) "000000000000000000000065" = Some (u_id bob)
  /\ map o_user (orders (snd (post_orders (L := Toy.lib) (O := Toy.orders_model) Toy.env
                                 (Some ann_header) order_body shop)))
     = [u_id ann; u_id bob; u_id ann].
Proof. repeat split; vm_compute; reflexivity. Qed.

(** A body whose [products] is one object and whose [paymentStatus] is
    null is stored too, with one line item and no status, for Ann. *)
Example created_order_wrapped_products :
  let body :=
    <["paymentStatus" := VNull]>
      (<["products" := VObj [("product", VStr "000000000000000000000002")]]>
         order_body) in
  let result := post_orders (L := Toy.lib) (O := Toy.orders_model) Toy.env
                  (Some ann_header) body shop in
  res_status (fst result) = 201
  /\ map o_user (orders (snd result)) = [u_id ann; u_id bob; u_id ann]
  /\ map o_products (orders (snd result))
     = [[item 1 3; item 2 5]; [item 1 2]; [item 2 1]]
  /\ map o_paymentStatus (orders (snd result))
     = [Some "pending"; Some "completed"; None].
Proof. repeat split; vm_compute; reflexivity. Qed.

(** Ann asks for Bob's order 202. *)
Lemma get_order_by_id_witness :
  get_orders_id (L := Toy.lib) Toy.env (Some ann_header)
    "0000000000000000000000ca" shop
  = (respond_message 403 "Not authorized", shop).
Proof.
  assert (Hauth : auth (L := Toy.lib) Toy.env (Some ann_header) shop = Next ann)
    by (vm_compute; reflexivity).
  assert (Hid : oid_of_string (Lib := Toy.lib) "0000000000000000000000ca"
                = Some 202%N)
    by (vm_compute; reflexivity).
  destruct (get_order_by_id_behaviour _ _ "0000000000000000000000ca" _ _ Hauth)
    as [_ Hwell].
  destruct (Hwell _ Hid) as [_ Hfound].
  destruct (Hfound (order 202 101 [item 1 2] 6 "completed")) as [Hdenied _].
  - vm_compute. reflexivity.
  - apply Hdenied.
    + reflexivity.
    + vm_compute. discriminate.
    + vm_compute. eexists. reflexivity.
Defined.

(** Two requests of Ann that C1 as stated gets wrong: an id that is no
    ObjectId, with no order matching it, is answered 500, not 404; and
    Bob's order, once Bob's account is gone, is answered 500, not
    403. *)
Lemma get_order_by_id_counterexample :
  (auth (L := Toy.lib) Toy.env (Some ann_header) shop = Next ann
   /\ oid_of_string (Lib := Toy.lib) "abc" = None
   /\ res_status
        (fst (get_orders_id (L := Toy.lib) Toy.env (Some ann_header) "abc" shop))
      = 500)
  /\ (auth (L := Toy.lib) Toy.env (Some ann_header) shop_without_bob = Next ann
      /\ u_isAdmin ann = false
      /\ Order_findById 202 (orders shop_without_bob)
         = Some (order 202 (u_id bob) [item 1 2] 6 "completed")
      /\ u_id bob <> u_id ann
      /\ res_status
           (fst (get_orders_id (L := Toy.lib) Toy.env (Some ann_header)
                   "0000000000000000000000ca" shop_without_bob))
         = 500).
Proof.
  repeat split; try (vm_compute; reflexivity). vm_compute. discriminate.
Qed.

(** Mixed payment statuses: only the two "completed" orders count. *)
Example revenue_mixed_statuses :
  map o_paymentStatus (orders mixed)
  = [Some "completed"; Some "pending"; Some "completed"; Some "Completed"]
  /\ map o_totalAmount (orders mixed) = [10; 20; 30; 40]%float
  /\ dashboard_revenue_total mixed = 40%float.
Proof. repeat split; vm_compute; reflexivity. Qed.

(** An order whose [paymentStatus] was set to null is not counted. *)
Example revenue_null_status :
  dashboard_revenue_total
    (set_orders [order 201 100 [] 10 "completed";
                 {| o_id := 202; o_user := 100; o_products := [];
                    o_totalAmount := 20; o_shippingAddress := address;
                    o_paymentMethod := "card"; o_paymentStatus := None;
                    o_orderStatus := None; o_createdAt := None |}] shop)
  = 10%float.
Proof. vm_compute. reflexivity. Qed.

(** The additions are those of doubles, from the left: three completed
    orders of 0.1, 0.2 and 0.3 total 0.6000000000000001, and an order
    of 1 after one of 9007199254740992 leaves the total there. *)
Example revenue_is_rounded :
  dashboard_revenue_total
    (set_orders [order 201 100 [] 0.1 "completed";
                 order 202 100 [] 0.2 "completed";
                 order 203 100 [] 0.3 "completed"] shop)
  = 0.6000000000000001%float
  /\ dashboard_revenue_total
       (set_orders [order 201 100 [] 9007199254740992 "completed";
                    order 202 100 [] 1 "completed"] shop)
     = 9007199254740992%float.
Proof. split; vm_compute; reflexivity. Qed.


(** The claim's own example: line items (P1, 3), (P2, 5), (P1, 2) give
    P1 and P2 five each, whatever the status of the orders. *)
Example popularProducts_sums :
  unwind (orders shop) = [item 1 3; item 2 5; item 1 2]
  /\ map o_paymentStatus (orders shop) = [Some "pending"; Some "completed"]
  /\ quantity_of 1 (unwind (orders shop)) = 5%Z
  /\ quantity_of 2 (unwind (orders shop)) = 5%Z
  /\ map pp_count (popularProducts_by aggregate_popular_run shop) = [5; 5]%Z.
Proof. repeat split. Qed.

(** The code gives the sort no second key: the contracts of the stages
    hold of both orders of two products that sold the same, so the order
    of tied products is the one the engine's [$group] and [$sort]
    produce. *)
Lemma stage_contracts_on_ties :
  popularProducts shop milk_first
  /\ popularProducts shop cheese_first.
Proof.
  assert (Hgroup : group_stage (unwind (orders shop))
                     [{| g_id := 1; g_count := 5 |}; {| g_id := 2; g_count := 5 |}]).
  { split; [|split].
    - repeat constructor; cbn; intuition discriminate.
    - intros id. cbn. tauto.
    - repeat constructor. }
  split.
  - exists [{| g_id := 1; g_count := 5 |}; {| g_id := 2; g_count := 5 |}].
    split; [|reflexivity].
    exists [{| g_id := 1; g_count := 5 |}; {| g_id := 2; g_count := 5 |}],
           [{| g_id := 1; g_count := 5 |}; {| g_id := 2; g_count := 5 |}].
    split; [exact Hgroup|]. split; [|reflexivity].
    split; [reflexivity|]. repeat constructor; unfold count_ge; cbn; lia.
  - exists [{| g_id := 2; g_count := 5 |}; {| g_id := 1; g_count := 5 |}].
    split; [|reflexivity].
    exists [{| g_id := 1; g_count := 5 |}; {| g_id := 2; g_count := 5 |}],
           [{| g_id := 2; g_count := 5 |}; {| g_id := 1; g_count := 5 |}].
    split; [exact Hgroup|]. split; [|reflexivity].
    split; [apply perm_swap|]. repeat constructor; unfold count_ge; cbn; lia.
Qed.

(** Subscribing again, reactivating, subscribing a new address and
    unsubscribing an unknown one. *)
Lemma newsletter_subscribe_witness :
  post_newsletter Toy.env (Some "a@x.com") readers
  = (respond_message 400 "Email already subscribed", readers)
  /\ (let '(res, db') := post_newsletter Toy.env (Some "a@x.com") lapsed in
      res = respond_json (BMessage "Subscription reactivated successfully")
      /\ length (subscribers db') = length (subscribers lapsed)
      /\ map s_id (subscribers db') = map s_id (subscribers lapsed)
      /\ map s_email (subscribers db') = map s_email (subscribers lapsed)
      /\ Subscriber_findOne_email (Some "a@x.com") (subscribers db')
         = Some {| s_id := 300; s_email := "a@x.com"; s_active := true;
                   s_createdAt := 1690000000 |}
      /\ (forall x, In x (subscribers lapsed) -> s_id x <> 300%N ->
                    In x (subscribers db')))
  /\ post_newsletter Toy.env (Some "b@x.com") readers
     = (respond_message 201 "Subscribed successfully",
        set_subscribers
          [subscriber;
           {| s_id := 301; s_email := "b@x.com"; s_active := true;
              s_createdAt := 1700000000 |}] readers)
  /\ post_newsletter_unsubscribe (Some "b@x.com") readers
     = (respond_message 404 "Subscription not found", readers).
Proof.
  assert (Ha : "a@x.com" <> "") by discriminate.
  assert (Hb : "b@x.com" <> "") by discriminate.
  destruct (newsletter_subscribe_behaviour Toy.env readers "a@x.com" Ha)
    as (Hactive & _ & _ & _).
  destruct (newsletter_subscribe_behaviour Toy.env lapsed "a@x.com" Ha)
    as (_ & Hinactive & _ & _).
  destruct (newsletter_subscribe_behaviour Toy.env readers "b@x.com" Hb)
    as (_ & _ & Hnew & Hunknown).
  split; [|split; [|split]].
  - apply (Hactive subscriber); reflexivity.
  - apply (Hinactive
             {| s_id := 300; s_email := "a@x.com"; s_active := false;
                s_createdAt := 1690000000 |}); [|reflexivity|reflexivity].
    repeat constructor. cbn. tauto.
  - apply Hnew. reflexivity.
  - apply Hunknown. reflexivity.
Defined.

(** Reactivating gives back the collection of before the unsubscribe. *)
Example resubscribe_lapsed :
  post_newsletter Toy.env (Some "a@x.com") lapsed
  = (respond_json (BMessage "Subscription reactivated successfully"), readers).
Proof. reflexivity. Qed.

(** The empty string is no address: [required] rejects it, so
    subscribing it creates nothing. *)
Example subscribe_empty_string :
  Subscriber_findOne_email (Some "") (subscribers readers) = None
  /\ res_status (fst (post_newsletter Toy.env (Some "") readers)) = 400
  /\ subscribers (snd (post_newsletter Toy.env (Some "") readers))
     = subscribers readers.
Proof. repeat split; vm_compute; reflexivity. Qed.

Lemma unsubscribe_twice_witness :
  let '(res1, db1) := post_newsletter_unsubscribe (Some "a@x.com") readers in
  let '(res2, db2) := post_newsletter_unsubscribe (Some "a@x.com") db1 in
  res1 = respond_json (BMessage "Unsubscribed successfully")
  /\ res2 = res1
  /\ db2 = db1
  /\ Subscriber_findOne_email (Some "a@x.com") (subscribers db1)
     = Some {| s_id := 300; s_email := "a@x.com"; s_active := false;
               s_createdAt := 1690000000 |}
  /\ Subscriber_findOne_email (Some "a@x.com") (subscribers db2)
     = Some {| s_id := 300; s_email := "a@x.com"; s_active := false;
               s_createdAt := 1690000000 |}
  /\ length (subscribers db1) = length (subscribers readers)
  /\ map s_id (subscribers db2) = map s_id (subscribers readers).
Proof.
  apply (unsubscribe_twice readers "a@x.com" subscriber).
  - split; repeat constructor; [cbn; tauto|discriminate].
  - reflexivity.
Defined.

(** The record really changes: it was active before the first call. *)
Example unsubscribe_changes_flag :
  map s_active (subscribers readers) = [true]
  /\ snd (post_newsletter_unsubscribe (Some "a@x.com") readers) = lapsed
  /\ snd (post_newsletter_unsubscribe (Some "a@x.com") lapsed) = lapsed.
Proof. repeat split. Qed.

End Examples.

(** * Further properties of the server *)

(** ** The bearer credential *)

Section Bearer.
Context {L : Lib}.

Lemma prefix_rest_app pat rest : prefix_rest pat (pat ++ rest) = Some rest.
Proof.
  induction pat as [|c pat IH]; [now destruct rest|].
  change (prefix_rest (String c pat) (String c (pat ++ rest)) = Some rest).
  cbn [prefix_rest]. now rewrite Ascii.eqb_refl.
Qed.

Lemma prefix_rest_Some pat s rest :
  prefix_rest pat s = Some rest -> s = (pat ++ rest)%string.
Proof.
  revert s. induction pat as [|c pat IH]; intros s; cbn [prefix_rest].
  - now intros [= ->].
  - destruct s as [|d s]; [discriminate|].
    destruct (Ascii.eqb_spec c d) as [->|_]; [|discriminate].
    intros Hr. rewrite (IH _ Hr). reflexivity.
Qed.

Lemma js_replace_unfold pat repl s :
  js_replace pat repl s
  = match prefix_rest pat s with
    | Some rest => (repl ++ rest)%string
    | None =>
        match s with
        | EmptyString => EmptyString
        | String c s' => String c (js_replace pat repl s')
        end
    end.
Proof. destruct s; reflexivity. Qed.

(** [replace] takes a leading pattern out. *)
Lemma js_replace_prefix pat repl rest :
  js_replace pat repl (pat ++ rest) = (repl ++ rest)%string.
Proof.
  rewrite js_replace_unfold. now rewrite prefix_rest_app.
Qed.

(** [replace] leaves a string without the pattern as it is. *)
Lemma js_replace_absent pat repl t :
  includes pat t = false -> js_replace pat repl t = t.
Proof.
  induction t as [|c t IH]; rewrite js_replace_unfold; cbn [includes].
  - destruct (prefix_rest pat ""); [discriminate|reflexivity].
  - destruct (prefix_rest pat (String c t)); [discriminate|].
    intros Hn. now rewrite IH.
Qed.

(** X1: a token sent bare in the Authorization header, without the
    'Bearer ' prefix, is treated exactly like the same token sent with
    the prefix (for a token in which 'Bearer ' does not occur): [auth]
    only removes the first 'Bearer ' it finds and never requires it. *)
Theorem auth_bearer_prefix_optional env token db :
  includes "Bearer " token = false ->
  auth env (Some token) db = auth env (Some ("Bearer " ++ token)%string) db.
Proof.
  intros Hn. unfold auth. cbn [fmap option_fmap option_map].
  rewrite (js_replace_prefix "Bearer " "" token).
  rewrite (js_replace_absent _ _ _ Hn). reflexivity.
Qed.

Lemma js_replace_Bearer_empty header :
  js_replace "Bearer " "" header = "" <-> header = "" \/ header = "Bearer ".
Proof.
  split.
  - destruct header as [|c header]; [now left|].
    rewrite js_replace_unfold.
    destruct (prefix_rest "Bearer " (String c header)) as [rest|] eqn:Hp.
    + change (rest = "" -> String c header = "" \/ String c header = "Bearer ").
      intros ->. right. now apply prefix_rest_Some in Hp.
    + discriminate.
  - intros [->| ->]; reflexivity.
Qed.

(** X2: [auth] answers 401 'Authentication required' exactly when the
    Authorization header is absent, empty, or just 'Bearer '; every
    other header goes on to [jwt.verify]. *)
Theorem auth_required_iff env authorization db :
  auth env authorization db
  = Respond (respond_message 401 "Authentication required")
  <-> authorization = None \/ authorization = Some ""
      \/ authorization = Some "Bearer ".
Proof.
  unfold auth. destruct authorization as [header|];
    cbn [fmap option_fmap option_map truthy_string default from_option negb];
    [|split; [now left|reflexivity]].
  destruct (String.eqb_spec (js_replace "Bearer " "" header) "") as [He|Hne];
    cbn [negb].
  - split; [|reflexivity]. intros _.
    apply js_replace_Bearer_empty in He as [->| ->]; auto.
  - split.
    + destruct (jwt_verify _ _ _) as [userId|]; [|discriminate].
      destruct (oid_of_string userId) as [id|]; [|discriminate].
      destruct (User_findById id (users db)); discriminate.
    + intros [Hn|[[= ->]|[= ->]]]; [discriminate| |]; now contradiction Hne.
Qed.

(** X3: [auth] hands a request on only with a user that is stored in
    the users collection under the id that [jwt.verify] decoded from the
    presented token. *)
Theorem auth_passes_only_stored_user env authorization db user :
  auth env authorization db = Next user ->
  exists header userId,
    authorization = Some header
    /\ jwt_verify (js_replace "Bearer " "" header) (JWT_SECRET env) (env_now env)
       = Some userId
    /\ oid_of_string userId = Some (u_id user)
    /\ In user (users db).
Proof.
  unfold auth. destruct authorization as [header|];
    cbn [fmap option_fmap option_map truthy_string default from_option];
    [|discriminate].
  destruct (negb (negb _)); [discriminate|].
  destruct (jwt_verify _ _ _) as [userId|] eqn:Hv; [|discriminate].
  destruct (oid_of_string userId) as [id|] eqn:Hc; [|discriminate].
  destruct (User_findById id (users db)) as [u|] eqn:Hf; [|discriminate].
  intros [= ->]. apply User_findById_id in Hf as [<- Hin].
  exists header, userId. auto.
Qed.

Lemma auth_passes_only_stored_user_In env authorization db user :
  auth env authorization db = Next user -> In user (users db).
Proof.
  intros Hauth. apply auth_Next in Hauth.
  now apply User_findById_id in Hauth as [_ Hin].
Qed.

(** X4: the handler of a route declared with [auth, adminAuth] runs
    only for a stored user whose [isAdmin] is true; every other request
    is answered 401 or 403 and leaves the database as it was. *)
Theorem admin_route_gate {A} env authorization
    (handler : User -> DB -> Reply A * DB) db :
  (exists user,
      auth env authorization db = Next user
      /\ u_isAdmin user = true
      /\ In user (users db)
      /\ with_auth_admin env authorization handler db = handler user db)
  \/ (exists message,
        with_auth_admin env authorization handler db = (Message 401 message, db))
  \/ (exists user,
        auth env authorization db = Next user
        /\ u_isAdmin user = false
        /\ with_auth_admin env authorization handler db
           = (Message 403 "Admin access required", db)).
Proof.
  unfold with_auth_admin.
  destruct (auth env authorization db) as [user|r] eqn:Hauth.
  - rewrite adminAuth_admin.
    destruct (u_isAdmin user) eqn:Ha.
    + left. exists user. split; [reflexivity|]. split; [exact Ha|].
      split; [|reflexivity].
      now apply auth_passes_only_stored_user_In in Hauth.
    + right. right. exists user. auto.
  - right. left. pose proof (auth_Respond _ _ _ _ Hauth) as Hs.
    unfold gate_reply. rewrite Hs. eauto.
Qed.

End Bearer.

(** ** Accounts, across requests *)

Section AccountsAcross.
Context {L : Lib}.

Lemma find_app {A} (f : A -> bool) l1 l2 :
  find f (l1 ++ l2)
  = match find f l1 with
    | Some x => Some x
    | None => find f l2
    end.
Proof.
  induction l1 as [|x l1 IH]; cbn [find app]; [reflexivity|].
  now destruct (f x).
Qed.

Lemma find_none_all {A} (f : A -> bool) l :
  (forall x, In x l -> f x = false) -> find f l = None.
Proof.
  induction l as [|x l IH]; cbn [find In]; [reflexivity|].
  intros Hall. rewrite (Hall x) by now left. apply IH. auto.
Qed.

Lemma existsb_false_not_In {A B} (key : A -> B) (eqb : B -> B -> bool) b l :
  (forall x y, eqb x y = true <-> x = y) ->
  existsb (fun x => eqb (key x) b) l = false -> ~ In b (map key l).
Proof.
  intros Heqb Hex Hin. apply in_map_iff in Hin as (x & Hx & Hin).
  assert (Ht : existsb (fun x => eqb (key x) b) l = true).
  { apply existsb_exists. exists x. split; [assumption|]. now apply Heqb. }
  congruence.
Qed.

(** The email lookup after a successful registration finds the new
    user. *)
Lemma findOne_registered env db name email password :
  User_findOne_email (Some email) (users db) = None ->
  User_findOne_email (Some email)
    (users db ++ [registered_user env db name email password])
  = Some (registered_user env db name email password).
Proof.
  cbn [User_findOne_email]. intros Hf. rewrite find_app, Hf.
  cbn [find registered_user u_email]. now rewrite String.eqb_refl.
Qed.

(** X5: after a successful registration, a login with the same email
    and password succeeds (given that [bcrypt.compare] accepts a
    password against its own hash) and returns the public view the
    registration returned, with a token for the same user id. *)
Theorem register_then_login env env' body db name email password :
  User_findOne_email (cr_email body) (users db) = None ->
  cr_name body = Some name -> name <> "" ->
  cr_email body = Some email -> email <> "" ->
  cr_password body = Some password ->
  bcrypt_compare password (bcrypt_hash password (env_salt env)) = true ->
  exists token token' view,
    fst (post_auth_register env body db)
    = {| res_status := 201; res_body := BAuth token view |}
    /\ fst (post_auth_login env' body (snd (post_auth_register env body db)))
       = {| res_status := 200; res_body := BAuth token' view |}
    /\ token' = jwt_sign (pu_id view) (JWT_SECRET env') (env_now env').
Proof.
  intros Hf Hn Hne He Hee Hp Hcmp.
  rewrite (register_fresh _ _ _ _ _ _ Hf Hn Hne He Hee Hp). cbn [fst snd].
  rewrite He in Hf.
  erewrite login_success;
    [|rewrite He; cbn [users set_users]; now apply findOne_registered
     |exact Hp|exact Hcmp].
  cbn [fst]. eexists _, _, _. split; [reflexivity|].
  split; reflexivity.
Qed.

(** X6: after a successful registration, every further registration
    with the same email, whatever its name and password, is answered 400
    'User already exists' and changes nothing. *)
Theorem register_then_duplicate env env' body body' db name email password :
  User_findOne_email (cr_email body) (users db) = None ->
  cr_name body = Some name -> name <> "" ->
  cr_email body = Some email -> email <> "" ->
  cr_password body = Some password ->
  cr_email body' = Some email ->
  post_auth_register env' body' (snd (post_auth_register env body db))
  = (respond_message 400 "User already exists",
     snd (post_auth_register env body db)).
Proof.
  intros Hf Hn Hne He Hee Hp He'.
  rewrite (register_fresh _ _ _ _ _ _ Hf Hn Hne He Hee Hp). cbn [snd].
  rewrite He in Hf.
  apply register_duplicate with (registered_user env db name email password).
  rewrite He'. cbn [users set_users]. now apply findOne_registered.
Qed.

(** What a registration can do to the database. *)
Lemma register_db env body db :
  snd (post_auth_register env body db) = db
  \/ exists user,
       snd (post_auth_register env body db) = set_users (users db ++ [user]) db
       /\ ~ In (u_id user) (map u_id (users db))
       /\ ~ In (u_email user) (map u_email (users db)).
Proof.
  unfold post_auth_register, try_catch, bind, gets, lift.
  destruct (User_findOne_email (cr_email body) (users db)); [now left|].
  destruct (bcrypt_hash_js _ _) as [hashed|e]; [|now left].
  unfold User_create, bind, gets, validate.
  destruct (required_string "name" (cr_name body) ++ _); [|now left].
  unfold ret, modify, throw.
  match goal with
  | |- context [existsb (fun u => N.eqb (u_id u) (u_id ?x)) (users db)] =>
      set (user := x)
  end.
  destruct (existsb (fun u => N.eqb (u_id u) (u_id user)) (users db)) eqn:Hid;
    [now left|].
  destruct (existsb (fun u => String.eqb (u_email u) (u_email user)) (users db))
    eqn:Hemail; [now left|].
  right. exists user. split; [reflexivity|]. split.
  - eapply existsb_false_not_In; [|exact Hid]. apply N.eqb_eq.
  - eapply existsb_false_not_In; [|exact Hemail]. apply String.eqb_eq.
Qed.

Lemma NoDup_snoc {A} (x : A) l : List.NoDup l -> ~ In x l -> List.NoDup (l ++ [x]).
Proof.
  intros Hnd Hx. apply List.NoDup_app; [exact Hnd| |].
  - constructor; [intros []|constructor].
  - intros a Ha [<-|[]]. contradiction.
Qed.

(** X7: registration keeps the users collection well formed (unique
    [_id], unique email) and never touches a stored user or another
    collection: the database is unchanged, or exactly one user was
    appended. *)
Theorem register_keeps_users env body db :
  Users_wf (users db) ->
  Users_wf (users (snd (post_auth_register env body db)))
  /\ (exists added,
        snd (post_auth_register env body db)
        = set_users (users db ++ added) db
        /\ length added <= 1).
Proof.
  intros [Hids Hemails].
  destruct (register_db env body db) as [->|(user & -> & Hid & Hemail)].
  - split; [now split|]. exists []. rewrite app_nil_r. split; [|cbn; lia].
    now destruct db.
  - cbn [users set_users]. split.
    + split; rewrite map_app; now apply NoDup_snoc.
    + exists [user]. split; [reflexivity|cbn; lia].
Qed.

(** X8: a login request without a password is answered 500 when its
    email belongs to a stored user ([bcrypt.compare] throws on the
    missing argument) and 400 'Invalid credentials' when it does not. *)
Theorem login_without_password env body db :
  cr_password body = None ->
  res_status (fst (post_auth_login env body db))
  = match User_findOne_email (cr_email body) (users db) with
    | Some _ => 500
    | None => 400
    end.
Proof.
  intros Hp. unfold post_auth_login, try_catch, bind, gets, lift.
  destruct (User_findOne_email (cr_email body) (users db)); [|reflexivity].
  now rewrite Hp.
Qed.

(** With unique ids, the user found by email is the one found by its
    id. *)
Lemma User_findById_of_In us user :
  List.NoDup (map u_id us) -> In user us ->
  User_findById (u_id user) us = Some user.
Proof.
  unfold User_findById. induction us as [|u us IH]; cbn [map find In]; [tauto|].
  intros Hnd [->|Hin].
  - now rewrite N.eqb_refl.
  - inversion Hnd as [|? ? Hnot Hnd']; subst.
    destruct (N.eqb_spec (u_id u) (u_id user)) as [Heq|_]; [|auto].
    exfalso. apply Hnot. rewrite Heq. now apply in_map.
Qed.

(** X9: the token a successful login returns, sent back as 'Bearer
    <token>' while [jwt.verify] accepts it and decodes the id it was
    signed for, makes [GET /api/auth/me] answer 200 with the public view
    the login returned. *)
Theorem login_then_me env env' body db user password userId :
  List.NoDup (map u_id (users db)) ->
  User_findOne_email (cr_email body) (users db) = Some user ->
  cr_password body = Some password ->
  bcrypt_compare password (u_password user) = true ->
  let token := jwt_sign (u_id user) (JWT_SECRET env) (env_now env) in
  token <> "" ->
  jwt_verify token (JWT_SECRET env') (env_now env') = Some userId ->
  oid_of_string userId = Some (u_id user) ->
  post_auth_login env body db
  = (respond_json (BAuth token (public_user user)), db)
  /\ get_auth_me env' (Some ("Bearer " ++ token)%string) db
     = (respond_json (BUser (public_user user)), db).
Proof.
  intros Hnd Hf Hp Hcmp token Hne Hv Hc. split.
  - now apply login_success with password.
  - unfold get_auth_me, with_auth.
    rewrite (auth_verified env' ("Bearer " ++ token)%string db userId);
      rewrite ?(js_replace_prefix "Bearer " "" token); try assumption.
    rewrite Hc.
    destruct (cr_email body) as [e|]; [|discriminate].
    apply User_findOne_email_In in Hf as [_ Hin].
    now rewrite (User_findById_of_In _ _ Hnd Hin).
Qed.

(** X10: the login route, [GET /api/auth/me], both order reads and both
    product reads never change the database, whatever the request. *)
Theorem read_routes_do_not_write env authorization body id db :
  snd (post_auth_login env body db) = db
  /\ snd (get_auth_me env authorization db) = db
  /\ snd (get_orders_id env authorization id db) = db
  /\ snd (get_orders env authorization db) = db
  /\ snd (get_products db) = db
  /\ snd (get_products_id id db) = db.
Proof.
  split; [|split; [|split; [|split; [|split]]]].
  - unfold post_auth_login, try_catch, bind, gets, lift.
    destruct (User_findOne_email _ _); [|reflexivity].
    destruct (bcrypt_compare_js _ _) as [[]|]; reflexivity.
  - unfold get_auth_me, with_auth. now destruct (auth _ _ _).
  - unfold get_orders_id, with_auth. destruct (auth _ _ _) as [user|]; [|reflexivity].
    unfold get_orders_id_handler, try_catch, bind, gets, lift.
    destruct (cast_param_id id); [|reflexivity].
    destruct (Order_findById _ _) as [order|]; [|reflexivity].
    cbn [fmap option_fmap option_map].
    destruct (negb (u_isAdmin user)); [|reflexivity].
    destruct (get_user_id _) as [owner|]; [|reflexivity].
    cbn [exc_bind]. now destruct (negb _).
  - unfold get_orders, with_auth_reply. now destruct (auth _ _ _).
  - reflexivity.
  - unfold get_products_id, try_reply, bind, gets, lift.
    destruct (cast_param_id id); [|reflexivity].
    now destruct (Product_findById _ _).
Qed.

End AccountsAcross.

(** ** Orders, across requests *)

Section OrdersAcross.
Context {L : Lib} {O : OrderModel}.

(** [auth] reads the users collection only. *)
Lemma auth_users env authorization db1 db2 :
  users db1 = users db2 ->
  auth env authorization db1 = auth env authorization db2.
Proof.
  intros Hu. unfold auth. now rewrite Hu.
Qed.

Lemma set_orders_same db : set_orders (orders db) db = db.
Proof. now destruct db. Qed.

(** X11: an order creation that is not answered 201 leaves the database
    as it was.  One that is answered 201 appends the returned order
    under an [_id] no stored order had, and the dashboard's revenue
    total becomes the old total plus the order's [totalAmount], added
    as doubles, when the order's [paymentStatus] is "completed", and
    stays as it was otherwise; a body without a [paymentStatus] gives
    "pending", so its order leaves the total as it was. *)
Theorem order_creation_effect env authorization body db :
  (res_status (fst (post_orders env authorization body db)) <> 201 ->
   snd (post_orders env authorization body db) = db)
  /\ (res_status (fst (post_orders env authorization body db)) = 201 ->
      exists order,
        res_body (fst (post_orders env authorization body db)) = BOrder order
        /\ snd (post_orders env authorization body db)
           = set_orders (orders db ++ [order]) db
        /\ ~ In (o_id order) (map o_id (orders db))
        /\ dashboard_revenue_total (snd (post_orders env authorization body db))
           = (if has_paymentStatus "completed" order
              then (dashboard_revenue_total db + o_totalAmount order)%float
              else dashboard_revenue_total db)
        /\ (body !! "paymentStatus" = None ->
            o_paymentStatus order = Some "pending"
            /\ dashboard_revenue_total
                 (snd (post_orders env authorization body db))
               = dashboard_revenue_total db)).
Proof.
  unfold post_orders, with_auth.
  destruct (auth env authorization db) as [user|r] eqn:Hauth.
  - rewrite post_orders_handler_run.
    destruct (new_Order env _ _) as [order|message] eqn:Hnew;
      [|split; [reflexivity|discriminate]].
    destruct (existsb _ (orders db)) eqn:Hid;
      [split; [reflexivity|discriminate]|].
    cbn [fst snd res_status res_body]. split; [congruence|].
    intros _. exists order. split; [reflexivity|]. split; [reflexivity|].
    assert (Hrev : dashboard_revenue_total (set_orders (orders db ++ [order]) db)
                   = if has_paymentStatus "completed" order
                     then (dashboard_revenue_total db + o_totalAmount order)%float
                     else dashboard_revenue_total db).
    { rewrite dashboard_revenue_total_app. cbn [add_completed].
      now rewrite set_orders_same. }
    split; [|split].
    + eapply existsb_false_not_In; [|exact Hid]. apply N.eqb_eq.
    + exact Hrev.
    + intros Hs.
      assert (Hp : o_paymentStatus order = Some "pending").
      { eapply new_Order_paymentStatus; [|exact Hnew].
        rewrite lookup_insert_ne by discriminate. exact Hs. }
      split; [exact Hp|]. rewrite Hrev. unfold has_paymentStatus.
      now rewrite Hp.
  - cbn [fst snd]. split; [reflexivity|].
    intros Hs. apply auth_Respond in Hauth. congruence.
Qed.

(** X12: the order list of a user who is not an admin holds exactly the
    stored orders whose [user] is the requester, each once and in
    stored order; an admin's list holds every stored order.  Each entry
    is the order with its references populated. *)
Theorem order_list_scope env authorization db user :
  auth env authorization db = Next user ->
  exists found,
    get_orders env authorization db = (Json 200 found, db)
    /\ found = map (populate_order db) (map po_order found)
    /\ (u_isAdmin user = true -> map po_order found = orders db)
    /\ (u_isAdmin user = false ->
        map po_order found
        = List.filter (fun o => N.eqb (o_user o) (u_id user)) (orders db)
        /\ forall order,
             In order (map po_order found)
             <-> In order (orders db) /\ o_user order = u_id user).
Proof.
  intros Hauth. unfold get_orders, with_auth_reply. rewrite Hauth.
  unfold get_orders_handler, try_reply, bind, gets, ret.
  eexists. split; [reflexivity|].
  assert (Hpo : forall os, map po_order (map (populate_order db) os) = os).
  { intros os. rewrite map_map. cbn [populate_order po_order]. apply map_id. }
  rewrite Hpo. split; [reflexivity|].
  unfold Order_find_for. split; intros Ha; rewrite Ha; [reflexivity|].
  split; [reflexivity|]. intros order. rewrite filter_In, N.eqb_eq. tauto.
Qed.

Lemma Order_findById_snoc order os :
  ~ In (o_id order) (map o_id os) ->
  Order_findById (o_id order) (os ++ [order]) = Some order.
Proof.
  intros Hnot. unfold Order_findById. rewrite find_app.
  rewrite find_none_all.
  - cbn [find]. now rewrite N.eqb_refl.
  - intros o Ho. apply N.eqb_neq. intros Heq. apply Hnot.
    rewrite <- Heq. now apply in_map.
Qed.

(** X13: an order a user has just created (201) is returned to that
    user by [GET /api/orders/:id] under the [_id] the creation
    reported. *)
Theorem create_then_get_order env env' authorization body id db user order :
  auth env authorization db = Next user ->
  auth env' authorization db = Next user ->
  fst (post_orders env authorization body db)
  = {| res_status := 201; res_body := BOrder order |} ->
  oid_of_string id = Some (o_id order) ->
  get_orders_id env' authorization id (snd (post_orders env authorization body db))
  = (respond_json
       (BPopulatedOrder
          (populate_order (snd (post_orders env authorization body db)) order)),
     snd (post_orders env authorization body db)).
Proof.
  intros Hauth Hauth' Hres Hid.
  unfold post_orders, with_auth in *. rewrite Hauth in *.
  rewrite post_orders_handler_run in *.
  destruct (new_Order env _ _) as [created|message] eqn:Hnew; [|discriminate].
  destruct (existsb _ (orders db)) eqn:Hfresh; [discriminate|].
  cbn [fst snd] in *. injection Hres as ->.
  unfold get_orders_id, with_auth.
  rewrite (auth_users env' authorization _ db) by reflexivity.
  rewrite Hauth'.
  rewrite (get_orders_id_found id (o_id order) user _ order Hid).
  - apply new_Order_stamped in Hnew. rewrite Hnew.
    cbn [users set_orders]. rewrite (auth_Next _ _ _ _ Hauth'), N.eqb_refl.
    now destruct (u_isAdmin user).
  - cbn [orders set_orders]. apply Order_findById_snoc.
    eapply existsb_false_not_In; [|exact Hfresh]. apply N.eqb_eq.
Qed.

End OrdersAcross.

(** ** Products *)

Section Products.
Context {L : Lib}.

Lemma remove_first_find_same {A} (key : A -> ObjectId) id l :
  List.NoDup (map key l) ->
  find (fun x => N.eqb (key x) id)
       (remove_first (fun x => N.eqb (key x) id) l) = None.
Proof.
  induction l as [|x l IH]; cbn [map remove_first find]; [reflexivity|].
  intros Hnd. inversion Hnd as [|? ? Hnot Hnd']; subst.
  destruct (N.eqb_spec (key x) id) as [Heq|Hne].
  - apply find_none_all. intros y Hy. apply N.eqb_neq. intros Hy'.
    apply Hnot. rewrite Heq, <- Hy'. now apply in_map.
  - cbn [find]. destruct (N.eqb_spec (key x) id); [contradiction|]. auto.
Qed.

Lemma remove_first_find_other {A} (key : A -> ObjectId) id id' l :
  id' <> id ->
  find (fun x => N.eqb (key x) id')
       (remove_first (fun x => N.eqb (key x) id) l)
  = find (fun x => N.eqb (key x) id') l.
Proof.
  intros Hne. induction l as [|x l IH]; cbn [remove_first find]; [reflexivity|].
  destruct (N.eqb_spec (key x) id) as [Heq|Hx].
  - destruct (N.eqb_spec (key x) id') as [Heq'|_]; [congruence|reflexivity].
  - cbn [find]. now rewrite IH.
Qed.

Lemma remove_first_length {A} (p : A -> bool) l x :
  find p l = Some x -> S (length (remove_first p l)) = length l.
Proof.
  induction l as [|y l IH]; cbn [find remove_first length]; [discriminate|].
  destruct (p y); [reflexivity|]. intros Hf. cbn [length]. now rewrite IH.
Qed.

(** X14: for an admin, deleting a product by a well-formed id answers
    404 and changes nothing when no product has the id.  When one has,
    it answers 200, the collection (with unique [_id]s) is one product
    shorter, the id is no longer found (a [GET] of it answers 404), every
    other id is found exactly as before, and no other collection is
    touched: orders that reference the product keep the reference, which
    now populates to null. *)
Theorem delete_product_effect env authorization id oid db user :
  auth env authorization db = Next user ->
  u_isAdmin user = true ->
  oid_of_string id = Some oid ->
  List.NoDup (map p_id (products db)) ->
  match Product_findById oid (products db) with
  | None =>
      delete_products_id env authorization id db
      = (Message 404 "Product not found", db)
  | Some _ =>
      fst (delete_products_id env authorization id db)
      = Message 200 "Product deleted successfully"
      /\ (let db' := snd (delete_products_id env authorization id db) in
          S (length (products db')) = length (products db)
          /\ Product_findById oid (products db') = None
          /\ fst (get_products_id id db') = Message 404 "Product not found"
          /\ (forall oid', oid' <> oid ->
                Product_findById oid' (products db')
                = Product_findById oid' (products db))
          /\ users db' = users db /\ orders db' = orders db
          /\ subscribers db' = subscribers db
          /\ populate_product (products db') oid = None)
  end.
Proof.
  intros Hauth Ha Hid Hnd.
  unfold delete_products_id, with_auth_admin. rewrite Hauth, adminAuth_admin, Ha.
  unfold delete_products_id_handler, try_reply, bind, gets, lift, cast_param_id.
  rewrite Hid.
  destruct (Product_findById oid (products db)) as [product|] eqn:Hf;
    [|reflexivity].
  cbn [fst snd modify ret products set_products users orders subscribers].
  assert (Hgone : Product_findById oid
                    (remove_first (fun p => N.eqb (p_id p) oid) (products db))
                  = None)
    by now apply (remove_first_find_same p_id).
  split; [reflexivity|]. split; [now apply remove_first_length with product|].
  split; [exact Hgone|]. split.
  { unfold get_products_id, try_reply, bind, gets, lift, cast_param_id.
    rewrite Hid. cbn [products set_products]. now rewrite Hgone. }
  split.
  { intros oid' Hne. now apply (remove_first_find_other p_id). }
  repeat (split; [reflexivity|]).
  unfold populate_product. now rewrite Hgone.
Qed.

(** X15: [GET /api/products/:id] answers 500 for an id that is no
    ObjectId, 404 for an ObjectId no product has, and otherwise 200 with
    a product whose [_id] is the one asked for and which the list route
    returns as well. *)
Theorem get_product_by_id_cases id db :
  match oid_of_string id with
  | None => exists message, fst (get_products_id id db) = Message 500 message
  | Some oid =>
      (Product_findById oid (products db) = None
       /\ fst (get_products_id id db) = Message 404 "Product not found")
      \/ (exists product found,
            fst (get_products_id id db) = Json 200 product
            /\ p_id product = oid
            /\ fst (get_products db) = Json 200 found
            /\ In product found)
  end.
Proof.
  unfold get_products_id, try_reply, bind, gets, lift, cast_param_id.
  destruct (oid_of_string id) as [oid|]; [|eauto].
  destruct (Product_findById oid (products db)) as [product|] eqn:Hf;
    [right|left; auto].
  exists product, (products db). unfold Product_findById in Hf.
  apply find_some in Hf as [Hin Heq]. apply N.eqb_eq in Heq.
  repeat split; auto.
Qed.

End Products.

(** ** Newsletter, across requests *)

Section NewsletterAcross.

Lemma update_first_undo (ss : list NewsletterSubscriber) s :
  List.NoDup (map s_id ss) -> In s ss -> s_active s = true ->
  update_first (fun x => N.eqb (s_id x) (s_id s)) (set_active true)
    (update_first (fun x => N.eqb (s_id x) (s_id s)) (set_active false) ss)
  = ss.
Proof.
  induction ss as [|x ss IH]; cbn [map update_first In]; [tauto|].
  intros Hnd Hin Ha. inversion Hnd as [|? ? Hnot Hnd']; subst.
  destruct (N.eqb_spec (s_id x) (s_id s)) as [Heq|Hne].
  - cbn [update_first set_active s_id]. rewrite Heq, N.eqb_refl.
    destruct Hin as [->|Hin].
    + destruct s; cbn in *; now subst.
    + exfalso. apply Hnot. rewrite Heq. now apply in_map.
  - cbn [update_first]. destruct (N.eqb_spec (s_id x) (s_id s)); [contradiction|].
    destruct Hin as [->|Hin]; [contradiction|]. now rewrite IH.
Qed.

Lemma set_subscribers_same db : set_subscribers (subscribers db) db = db.
Proof. now destruct db. Qed.

(** X16: on a well-formed collection, unsubscribing an email whose
    record is active and then subscribing it again answers
    'Unsubscribed successfully' and 'Subscription reactivated
    successfully' and restores the database exactly: the same record,
    no duplicate. *)
Theorem unsubscribe_then_resubscribe env db email s :
  Subscribers_wf (subscribers db) ->
  Subscriber_findOne_email (Some email) (subscribers db) = Some s ->
  s_active s = true ->
  fst (post_newsletter_unsubscribe (Some email) db)
  = respond_json (BMessage "Unsubscribed successfully")
  /\ post_newsletter env (Some email)
       (snd (post_newsletter_unsubscribe (Some email) db))
     = (respond_json (BMessage "Subscription reactivated successfully"), db).
Proof.
  intros [Hnd Hvalid] Hf Ha.
  destruct (Subscriber_findOne_email_In _ _ _ Hf) as [Hemail Hin].
  assert (Hs : s_email s <> "").
  { rewrite List.Forall_forall in Hvalid. now apply Hvalid. }
  rewrite (unsubscribe_found _ _ _ Hs Hf). cbn [fst snd]. split; [reflexivity|].
  pose proof (findOne_after_set_active false _ _ _ Hnd Hf) as Hf1.
  rewrite (subscribe_inactive env _ email (set_active false s));
    [|congruence|exact Hf1|reflexivity].
  cbn [subscribers set_subscribers set_active s_id]. f_equal.
  rewrite (update_first_undo _ _ Hnd Hin Ha).
  unfold set_subscribers. cbn [users orders products]. now destruct db.
Qed.

(** X17: subscribing a non-empty email that has no record twice in a
    row answers 201 'Subscribed successfully' and then 400 'Email
    already subscribed'; the second request changes nothing. *)
Theorem subscribe_twice env env' db email :
  email <> "" ->
  Subscriber_findOne_email (Some email) (subscribers db) = None ->
  fst (post_newsletter env (Some email) db)
  = respond_message 201 "Subscribed successfully"
  /\ post_newsletter env' (Some email) (snd (post_newsletter env (Some email) db))
     = (respond_message 400 "Email already subscribed",
        snd (post_newsletter env (Some email) db)).
Proof.
  intros He Hf. rewrite (subscribe_new env _ _ He Hf). cbn [fst snd].
  split; [reflexivity|].
  eapply subscribe_active.
  - cbn [Subscriber_findOne_email subscribers set_subscribers] in *.
    rewrite find_app, Hf. cbn [find s_email]. now rewrite String.eqb_refl.
  - reflexivity.
Qed.

(** What each newsletter route can do to the collection. *)
Lemma unsubscribe_db email db :
  snd (post_newsletter_unsubscribe email db) = db
  \/ exists id,
       snd (post_newsletter_unsubscribe email db)
       = set_subscribers
           (update_first (fun x => N.eqb (s_id x) id) (set_active false)
                         (subscribers db)) db.
Proof.
  unfold post_newsletter_unsubscribe, try_catch, bind, gets.
  destruct (Subscriber_findOne_email email (subscribers db)) as [s|]; [|now left].
  unfold Subscriber_save_active, bind, validate.
  destruct (required_string "email" (Some (s_email s))); [|now left].
  right. exists (s_id s). reflexivity.
Qed.

Lemma subscribe_db env email db :
  snd (post_newsletter env email db) = db
  \/ (exists id,
        snd (post_newsletter env email db)
        = set_subscribers
            (update_first (fun x => N.eqb (s_id x) id) (set_active true)
                          (subscribers db)) db)
  \/ (exists s,
        snd (post_newsletter env email db)
        = set_subscribers (subscribers db ++ [s]) db).
Proof.
  unfold post_newsletter, try_catch, bind, gets.
  destruct (Subscriber_findOne_email email (subscribers db)) as [s|].
  - destruct (s_active s); [now left|].
    unfold Subscriber_save_active, bind, validate.
    destruct (required_string "email" (Some (s_email s))); [|now left].
    right. left. exists (s_id s). reflexivity.
  - unfold Subscriber_create, bind, gets, validate.
    destruct (required_string "email" email); [|now left].
    unfold ret, modify, throw.
    destruct (existsb _ (subscribers db)); [now left|].
    destruct (existsb _ (subscribers db)); [now left|].
    right. right. eexists. reflexivity.
Qed.

Lemma update_first_emails id b ss :
  map s_email (update_first (fun x => N.eqb (s_id x) id) (set_active b) ss)
  = map s_email ss.
Proof.
  induction ss as [|x ss IH]; cbn [update_first map]; [reflexivity|].
  destruct (N.eqb (s_id x) id); cbn [map set_active s_email]; congruence.
Qed.

(** X18: neither newsletter route ever removes a subscriber record or
    changes the [_id] or the email of one: unsubscribing keeps both
    lists as they are, subscribing keeps them or adds one record at the
    end; the other collections are not touched. *)
Theorem newsletter_keeps_records env email db :
  (let db' := snd (post_newsletter_unsubscribe email db) in
   map s_id (subscribers db') = map s_id (subscribers db)
   /\ map s_email (subscribers db') = map s_email (subscribers db)
   /\ users db' = users db /\ orders db' = orders db
   /\ products db' = products db)
  /\ (let db' := snd (post_newsletter env email db) in
      (exists added,
          length added <= 1
          /\ map s_id (subscribers db') = map s_id (subscribers db ++ added)
          /\ map s_email (subscribers db') = map s_email (subscribers db ++ added))
      /\ users db' = users db /\ orders db' = orders db
      /\ products db' = products db).
Proof.
  split.
  - destruct (unsubscribe_db email db) as [->|[id ->]]; cbn zeta; [tauto|].
    cbn [subscribers set_subscribers users orders products].
    rewrite update_first_emails, (update_first_keys s_id) by reflexivity. tauto.
  - destruct (subscribe_db env email db) as [->|[[id ->]|[s ->]]]; cbn zeta.
    + split; [|tauto]. exists []. rewrite app_nil_r. cbn. auto with arith.
    + cbn [subscribers set_subscribers users orders products].
      split; [|tauto]. exists []. rewrite app_nil_r.
      rewrite update_first_emails, (update_first_keys s_id) by reflexivity.
      cbn. auto with arith.
    + cbn [subscribers set_subscribers users orders products].
      split; [|tauto]. exists [s]. cbn. auto with arith.
Qed.

Lemma count_active_update (ss : list NewsletterSubscriber) s b :
  List.NoDup (map s_id ss) -> In s ss ->
  length (List.filter s_active
            (update_first (fun x => N.eqb (s_id x) (s_id s)) (set_active b) ss))
  + (if s_active s then 1 else 0)
  = length (List.filter s_active ss) + (if b then 1 else 0).
Proof.
  induction ss as [|x ss IH]; cbn [map update_first In]; [tauto|].
  intros Hnd Hin. inversion Hnd as [|? ? Hnot Hnd']; subst.
  destruct (N.eqb_spec (s_id x) (s_id s)) as [Heq|Hne].
  - destruct Hin as [->|Hin].
    + cbn [List.filter set_active s_active].
      destruct b, (s_active s); cbn [length]; lia.
    + exfalso. apply Hnot. rewrite Heq. now apply in_map.
  - destruct Hin as [->|Hin]; [contradiction|].
    specialize (IH Hnd' Hin). cbn [List.filter].
    destruct (s_active x); cbn [length]; lia.
Qed.

(** X19: on a collection with unique [_id]s, the dashboard's count of
    active subscribers follows the newsletter routes: a subscription
    answered 201 or 200 raises it by one and one answered 400 leaves
    it; unsubscribing an email whose record is active lowers it by one,
    and unsubscribing any other email leaves it. *)
Theorem subscriberCount_follows env email db :
  List.NoDup (map s_id (subscribers db)) ->
  subscriberCount (snd (post_newsletter env email db))
  = subscriberCount db
    + (if Nat.eqb (res_status (fst (post_newsletter env email db))) 400
       then 0 else 1)
  /\ subscriberCount (snd (post_newsletter_unsubscribe email db))
     + match Subscriber_findOne_email email (subscribers db) with
       | Some s =>
           if Nat.eqb (res_status (fst (post_newsletter_unsubscribe email db))) 200
           then (if s_active s then 1 else 0) else 0
       | None => 0
       end
     = subscriberCount db.
Proof.
  intros Hnd. unfold subscriberCount. split.
  - unfold post_newsletter, try_catch, bind, gets.
    destruct (Subscriber_findOne_email email (subscribers db)) as [s|] eqn:Hf.
    + destruct (s_active s) eqn:Ha; [cbn; lia|].
      unfold Subscriber_save_active, bind, validate.
      destruct (required_string "email" (Some (s_email s))); [|cbn; lia].
      cbn [fst snd modify ret respond_json res_status subscribers set_subscribers
             Nat.eqb].
      destruct email as [e|]; [|discriminate].
      apply Subscriber_findOne_email_In in Hf as [_ Hin].
      pose proof (count_active_update _ _ true Hnd Hin) as Hc.
      rewrite Ha in Hc. cbn in Hc |- *. lia.
    + unfold Subscriber_create, bind, gets, validate.
      destruct (required_string "email" email); [|cbn; lia].
      unfold ret, modify, throw.
      destruct (existsb _ (subscribers db)); [cbn; lia|].
      destruct (existsb _ (subscribers db)); [cbn; lia|].
      cbn [fst snd respond_message res_status subscribers set_subscribers].
      rewrite List.filter_app, List.length_app. cbn. lia.
  - unfold post_newsletter_unsubscribe, try_catch, bind, gets.
    destruct (Subscriber_findOne_email email (subscribers db)) as [s|] eqn:Hf;
      [|cbn; lia].
    unfold Subscriber_save_active, bind, validate.
    destruct (required_string "email" (Some (s_email s))); [|cbn; lia].
    cbn [fst snd modify ret respond_json res_status subscribers set_subscribers
           Nat.eqb].
    destruct email as [e|]; [|discriminate].
    apply Subscriber_findOne_email_In in Hf as [_ Hin].
    pose proof (count_active_update _ _ false Hnd Hin) as Hc.
    cbn in Hc |- *. lia.
Qed.

(** X20: both newsletter routes keep a well-formed collection well
    formed, and keep the emails of the collection pairwise distinct. *)
Theorem newsletter_keeps_wf env email db :
  Subscribers_wf (subscribers db) ->
  List.NoDup (map s_email (subscribers db)) ->
  (Subscribers_wf (subscribers (snd (post_newsletter env email db)))
   /\ List.NoDup (map s_email (subscribers (snd (post_newsletter env email db)))))
  /\ (Subscribers_wf (subscribers (snd (post_newsletter_unsubscribe email db)))
      /\ List.NoDup
           (map s_email (subscribers (snd (post_newsletter_unsubscribe email db))))).
Proof.
  intros Hwf Hemails. split; split.
  - now apply post_newsletter_wf.
  - unfold post_newsletter, try_catch, bind, gets.
    destruct (Subscriber_findOne_email email (subscribers db)) as [s|] eqn:Hf.
    + destruct (s_active s); [exact Hemails|].
      unfold Subscriber_save_active, bind, validate.
      destruct (required_string "email" (Some (s_email s))); [|exact Hemails].
      cbn [snd modify ret subscribers set_subscribers].
      now rewrite update_first_emails.
    + unfold Subscriber_create, bind, gets, validate.
      destruct (required_string "email" email); [|exact Hemails].
      unfold ret, modify, throw.
      destruct (existsb _ (subscribers db)); [exact Hemails|].
      destruct (existsb (fun s => String.eqb (s_email s) _) (subscribers db))
        eqn:Hdup; [exact Hemails|].
      cbn [snd subscribers set_subscribers]. rewrite map_app.
      apply NoDup_snoc; [exact Hemails|].
      eapply existsb_false_not_In; [|exact Hdup]. apply String.eqb_eq.
  - now apply post_newsletter_unsubscribe_wf.
  - destruct (unsubscribe_db email db) as [->|[id ->]]; [exact Hemails|].
    cbn [subscribers set_subscribers]. now rewrite update_first_emails.
Qed.

End NewsletterAcross.

(** ** Popular products, beyond the ranking *)

Section PopularMore.

(** The documents after [$sort], and what is known of each. *)
Lemma aggregate_popular_sorted os agg :
  aggregate_popular os agg ->
  exists sorted,
    agg = firstn 5 sorted
    /\ StronglySorted count_ge sorted
    /\ group_stage (unwind os) sorted.
Proof.
  intros (groups & sorted & Hgroup & (Hperm & Hsorted) & ->).
  exists sorted. split; [reflexivity|]. split; [exact Hsorted|].
  destruct Hgroup as (Hnd & Hids & Hcnt). split; [|split].
  - exact (Permutation_NoDup (Permutation_map g_id Hperm) Hnd).
  - intros id. rewrite <- Hids. split; apply Permutation_in;
      [symmetry|]; now apply Permutation_map.
  - rewrite List.Forall_forall in *. intros g Hg. apply Hcnt.
    now apply (Permutation_in _ (Permutation_sym Hperm)).
Qed.


(** X22: the popular-products list has exactly as many entries as there
    are distinct products in the line items of all orders, up to five;
    with no line item at all it is empty. *)
Theorem popularProducts_length db result :
  popularProducts db result ->
  length result
  = Nat.min 5 (length (nodup N.eq_dec (map li_product (unwind (orders db))))).
Proof.
  intros (agg & Hagg & ->). unfold populate_popular. rewrite length_map.
  destruct (aggregate_popular_sorted _ _ Hagg) as (sorted & -> & _ & Hg).
  rewrite List.length_firstn. f_equal.
  destruct Hg as (Hnd & Hids & _).
  rewrite <- (length_map g_id sorted).
  apply Permutation_length, Permutation.NoDup_Permutation.
  - exact Hnd.
  - apply NoDup_nodup.
  - intros id. rewrite nodup_In. apply Hids.
Qed.

End PopularMore.

(** ** The further properties at work on the sample data *)

Section MoreExamples.
Import Sample More.

Ltac distinct :=
  repeat (constructor; [cbn; intuition discriminate|]); constructor.

Lemma auth_bearer_prefix_optional_witness :
  auth (L := Toy.lib) Toy.env (Some ann_token) shop
  = auth (L := Toy.lib) Toy.env (Some ("Bearer " ++ ann_token)%string) shop.
Proof.
  apply (auth_bearer_prefix_optional (L := Toy.lib)). vm_compute. reflexivity.
Defined.

Lemma auth_passes_only_stored_user_witness :
  exists header userId,
    Some ann_header = Some header
    /\ jwt_verify (Lib := Toy.lib) (js_replace "Bearer " "" header)
         (JWT_SECRET Toy.env) (env_now Toy.env) = Some userId
    /\ oid_of_string (Lib := Toy.lib) userId = Some (u_id ann)
    /\ In ann (users shop).
Proof.
  apply (auth_passes_only_stored_user (L := Toy.lib) Toy.env (Some ann_header)
           shop ann).
  vm_compute. reflexivity.
Defined.

Lemma register_then_login_witness :
  exists token token' view,
    fst (post_auth_register (L := Toy.lib) Toy.env cid shop)
    = {| res_status := 201; res_body := BAuth token view |}
    /\ fst (post_auth_login (L := Toy.lib) Toy.env cid
              (snd (post_auth_register (L := Toy.lib) Toy.env cid shop)))
       = {| res_status := 200; res_body := BAuth token' view |}
    /\ token' = jwt_sign (Lib := Toy.lib) (pu_id view) (JWT_SECRET Toy.env)
                  (env_now Toy.env).
Proof.
  apply (register_then_login (L := Toy.lib) Toy.env Toy.env cid shop
           "Cid" "cid@x.com" "pw");
    try discriminate; vm_compute; reflexivity.
Defined.

Lemma register_then_duplicate_witness :
  post_auth_register (L := Toy.lib) Toy.env
    {| cr_name := Some "Other"; cr_email := Some "cid@x.com";
       cr_password := Some "x" |}
    (snd (post_auth_register (L := Toy.lib) Toy.env cid shop))
  = (respond_message 400 "User already exists",
     snd (post_auth_register (L := Toy.lib) Toy.env cid shop)).
Proof.
  apply (register_then_duplicate (L := Toy.lib) Toy.env Toy.env cid _ shop
           "Cid" "cid@x.com" "pw");
    try discriminate; vm_compute; reflexivity.
Defined.

Lemma register_keeps_users_witness :
  Users_wf (users (snd (post_auth_register (L := Toy.lib) Toy.env cid shop)))
  /\ (exists added,
        snd (post_auth_register (L := Toy.lib) Toy.env cid shop)
        = set_users (users shop ++ added) shop
        /\ length added <= 1).
Proof.
  apply (register_keeps_users (L := Toy.lib) Toy.env cid shop).
  split; distinct.
Defined.

Lemma login_without_password_witness :
  res_status
    (fst (post_auth_login (L := Toy.lib) Toy.env
            {| cr_name := None; cr_email := Some "ann@x.com";
               cr_password := None |} shop))
  = match User_findOne_email (Some "ann@x.com") (users shop) with
    | Some _ => 500
    | None => 400
    end.
Proof.
  apply (login_without_password (L := Toy.lib) Toy.env
           {| cr_name := None; cr_email := Some "ann@x.com";
              cr_password := None |} shop).
  reflexivity.
Defined.

Lemma login_then_me_witness :
  post_auth_login (L := Toy.lib) Toy.env ann_login shop
  = (respond_json
       (BAuth (jwt_sign (Lib := Toy.lib) (u_id ann) (JWT_SECRET Toy.env)
                 (env_now Toy.env))
              (public_user ann)), shop)
  /\ get_auth_me (L := Toy.lib) Toy.env
       (Some ("Bearer "
              ++ jwt_sign (Lib := Toy.lib) (u_id ann) (JWT_SECRET Toy.env)
                   (env_now Toy.env))%string) shop
     = (respond_json (BUser (public_user ann)), shop).
Proof.
  apply (login_then_me (L := Toy.lib) Toy.env Toy.env ann_login shop ann "pw"
           "000000000000000000000064").
  - distinct.
  - vm_compute. reflexivity.
  - reflexivity.
  - vm_compute. reflexivity.
  - vm_compute. discriminate.
  - vm_compute. reflexivity.
  - vm_compute. reflexivity.
Defined.

Lemma order_list_scope_witness :
  exists found,
    get_orders (L := Toy.lib) Toy.env (Some ann_header) shop = (Json 200 found, shop)
    /\ found = map (populate_order shop) (map po_order found)
    /\ (u_isAdmin ann = true -> map po_order found = orders shop)
    /\ (u_isAdmin ann = false ->
        map po_order found
        = List.filter (fun o => N.eqb (o_user o) (u_id ann)) (orders shop)
        /\ forall order,
             In order (map po_order found)
             <-> In order (orders shop) /\ o_user order = u_id ann).
Proof.
  apply (order_list_scope (L := Toy.lib) Toy.env (Some ann_header) shop ann).
  vm_compute. reflexivity.
Defined.

Lemma order_creation_effect_witness :
  exists order,
    res_body (fst (post_orders (L := Toy.lib) (O := Toy.orders_model) Toy.env
                     (Some ann_header) paid_body shop)) = BOrder order
    /\ snd (post_orders (L := Toy.lib) (O := Toy.orders_model) Toy.env
              (Some ann_header) paid_body shop)
       = set_orders (orders shop ++ [order]) shop
    /\ ~ In (o_id order) (map o_id (orders shop))
    /\ dashboard_revenue_total
         (snd (post_orders (L := Toy.lib) (O := Toy.orders_model) Toy.env
                 (Some ann_header) paid_body shop))
       = (if has_paymentStatus "completed" order
          then (dashboard_revenue_total shop + o_totalAmount order)%float
          else dashboard_revenue_total shop)
    /\ (paid_body !! "paymentStatus" = None ->
        o_paymentStatus order = Some "pending"
        /\ dashboard_revenue_total
             (snd (post_orders (L := Toy.lib) (O := Toy.orders_model) Toy.env
                     (Some ann_header) paid_body shop))
           = dashboard_revenue_total shop).
Proof.
  apply (proj2 (order_creation_effect (L := Toy.lib) (O := Toy.orders_model)
                  Toy.env (Some ann_header) paid_body shop)).
  vm_compute. reflexivity.
Defined.

(** The paid order of 0.5 moves the shop's revenue from 6 to 6.5; the
    unpaid one leaves it at 6. *)
Example order_creation_revenue :
  dashboard_revenue_total shop = 6%float
  /\ dashboard_revenue_total
       (snd (post_orders (L := Toy.lib) (O := Toy.orders_model) Toy.env
               (Some ann_header) paid_body shop)) = 6.5%float
  /\ dashboard_revenue_total
       (snd (post_orders (L := Toy.lib) (O := Toy.orders_model) Toy.env
               (Some ann_header) order_body shop)) = 6%float.
Proof. repeat split; vm_compute; reflexivity. Qed.

Lemma create_then_get_order_witness :
  get_orders_id (L := Toy.lib) Toy.env (Some ann_header)
    "0000000000000000000000cb"
    (snd (post_orders (L := Toy.lib) (O := Toy.orders_model) Toy.env (Some ann_header) order_body shop))
  = (respond_json
       (BPopulatedOrder
          (populate_order
             (snd (post_orders (L := Toy.lib) (O := Toy.orders_model) Toy.env (Some ann_header)
                     order_body shop)) created)),
     snd (post_orders (L := Toy.lib) (O := Toy.orders_model) Toy.env (Some ann_header) order_body shop)).
Proof.
  apply (create_then_get_order (L := Toy.lib) (O := Toy.orders_model) Toy.env Toy.env (Some ann_header)
           order_body "0000000000000000000000cb" shop ann created);
    vm_compute; reflexivity.
Defined.

Lemma delete_product_effect_witness :
  fst (delete_products_id (L := Toy.lib) Toy.env (Some root_header)
         "000000000000000000000001" shop_admin)
  = Message 200 "Product deleted successfully"
  /\ products (snd (delete_products_id (L := Toy.lib) Toy.env (Some root_header)
                      "000000000000000000000001" shop_admin))
     = [cheese].
Proof.
  pose proof (delete_product_effect (L := Toy.lib) Toy.env (Some root_header)
                "000000000000000000000001" 1%N shop_admin root) as Heffect.
  split.
  - apply Heffect; try (vm_compute; reflexivity). distinct.
  - reflexivity.
Defined.

Lemma unsubscribe_then_resubscribe_witness :
  fst (post_newsletter_unsubscribe (Some "a@x.com") readers)
  = respond_json (BMessage "Unsubscribed successfully")
  /\ post_newsletter Toy.env (Some "a@x.com")
       (snd (post_newsletter_unsubscribe (Some "a@x.com") readers))
     = (respond_json (BMessage "Subscription reactivated successfully"), readers).
Proof.
  apply (unsubscribe_then_resubscribe Toy.env readers "a@x.com" subscriber).
  - split; [distinct|]. repeat constructor. discriminate.
  - reflexivity.
  - reflexivity.
Defined.

Lemma subscribe_twice_witness :
  fst (post_newsletter Toy.env (Some "b@x.com") readers)
  = respond_message 201 "Subscribed successfully"
  /\ post_newsletter Toy.env (Some "b@x.com")
       (snd (post_newsletter Toy.env (Some "b@x.com") readers))
     = (respond_message 400 "Email already subscribed",
        snd (post_newsletter Toy.env (Some "b@x.com") readers)).
Proof.
  apply (subscribe_twice Toy.env Toy.env readers "b@x.com");
    [discriminate|reflexivity].
Defined.

Lemma subscriberCount_follows_witness :
  subscriberCount (snd (post_newsletter Toy.env (Some "b@x.com") readers)) = 2
  /\ subscriberCount (snd (post_newsletter_unsubscribe (Some "a@x.com") readers))
     = 0.
Proof.
  destruct (subscriberCount_follows Toy.env (Some "b@x.com") readers) as [Hsub _];
    [distinct|].
  destruct (subscriberCount_follows Toy.env (Some "a@x.com") readers) as [_ Hunsub];
    [distinct|].
  split.
  - rewrite Hsub. reflexivity.
  - vm_compute in Hunsub. vm_compute. lia.
Defined.

Lemma newsletter_keeps_wf_witness :
  Subscribers_wf
    (subscribers (snd (post_newsletter Toy.env (Some "b@x.com") readers)))
  /\ List.NoDup
       (map s_email
          (subscribers (snd (post_newsletter Toy.env (Some "b@x.com") readers)))).
Proof.
  apply (newsletter_keeps_wf Toy.env (Some "b@x.com") readers).
  - split; [distinct|]. repeat constructor. discriminate.
  - distinct.
Defined.


Lemma popularProducts_length_witness :
  length (popularProducts_run shop) = 2.
Proof.
  rewrite (popularProducts_length shop (popularProducts_run shop)
             (popularProducts_run_sound shop)).
  reflexivity.
Defined.

End MoreExamples.
